(** * deploy-test: the Express server (index.js) and its HTTP contract

    The server of this repository is a list of Express layers registered in
    source order: the static-file middleware, the JSON body parser, four
    routes and a catch-all 404 handler.  This file embeds that program:

    - [JS]       JavaScript values that flow through the handlers, and the
                 language built-ins the program calls ([JSON.parse],
                 [JSON.stringify], [decodeURIComponent],
                 [Date.prototype.toISOString]) as an interface;
    - [Express]  the part of the framework the program relies on: requests,
                 responses, the layer stack and its dispatch loop, path
                 patterns, [express.static] and [express.json] with their
                 default options, as the Express 4 API reference and the
                 router describe them;
    - [Server]   index.js itself: [PORT], the handlers and the stack [app];
    - [Observe]  what the contract observes of a response;
    - [Sample]   one implementation of the built-ins, to run the model.

    Scope of the model.  A request is its method, its path (query string
    removed, as the router sees it), the media type of its Content-Type
    header, whether the body parser supports its charset and content
    encoding, and its body text.  Conditional and range headers are
    outside the model.  For a HEAD request the response is the one the
    HTTP layer sends without its body. *)

From Stdlib Require Import ZArith Ascii String List Bool Lia.
From stdpp Require Import base option strings pretty gmap list.

Set Warnings "-register-all".

Local Open Scope Z_scope.
Local Open Scope string_scope.

(* ===================================================================== *)
(** ** JavaScript values and built-ins *)
(* ===================================================================== *)

Module JS.

(** A number as [JSON.parse] holds it: a finite value, kept as a decimal
    mantissa and exponent (the program never computes with numbers),
    negative zero, or an infinity (the value of a literal such as
    [1e400], too large for a double). *)
Inductive Number : Type :=
| Finite (mantissa exponent : Z)
| NegZero
| Infinite (negative : bool).

Definition number_eqb (a b : Number) : bool :=
  match a, b with
  | Finite m e, Finite m' e' => Z.eqb m m' && Z.eqb e e'
  | NegZero, NegZero => true
  | Infinite s, Infinite s' => Bool.eqb s s'
  | _, _ => false
  end.

(** A JSON value, as [JSON.parse] produces it and a handler passes it to
    [res.json]. *)
Inductive JSON : Type :=
| JNull
| JBool (b : bool)
| JNumber (n : Number)
| JString (s : string)
| JArray (items : list JSON)
| JObject (fields : list (string * JSON)).

(** Structural comparison of two JSON values (deep equality with the
    fields of an object taken in order). *)
Fixpoint deep_equal (a b : JSON) {struct a} : bool :=
  match a, b with
  | JNull, JNull => true
  | JBool x, JBool y => Bool.eqb x y
  | JNumber n, JNumber n' => number_eqb n n'
  | JString s, JString t => String.eqb s t
  | JArray xs, JArray ys =>
      (fix items (xs ys : list JSON) {struct xs} : bool :=
         match xs, ys with
         | [], [] => true
         | x :: xs', y :: ys' => deep_equal x y && items xs' ys'
         | _, _ => false
         end) xs ys
  | JObject fs, JObject gs =>
      (fix fields (fs gs : list (string * JSON)) {struct fs} : bool :=
         match fs, gs with
         | [], [] => true
         | (k, x) :: fs', (k', y) :: gs' =>
             String.eqb k k' && deep_equal x y && fields fs' gs'
         | _, _ => false
         end) fs gs
  | _, _ => false
  end.

(** How deep the arrays and objects of a value are nested. *)
Fixpoint depth (v : JSON) : nat :=
  match v with
  | JArray xs =>
      S ((fix items (xs : list JSON) : nat :=
            match xs with
            | [] => O
            | x :: xs' => Nat.max (depth x) (items xs')
            end) xs)
  | JObject fs =>
      S ((fix fields (fs : list (string * JSON)) : nat :=
            match fs with
            | [] => O
            | (_, x) :: fs' => Nat.max (depth x) (fields fs')
            end) fs)
  | _ => O
  end.

(** The value a reader of [JSON.stringify(v)] gets: [JSON.stringify]
    writes an infinity as [null] and negative zero as [0], and everything
    else as it is. *)
Fixpoint on_the_wire (v : JSON) : JSON :=
  match v with
  | JNumber (Infinite _) => JNull
  | JNumber NegZero => JNumber (Finite 0 0)
  | JArray xs => JArray (map on_the_wire xs)
  | JObject fs =>
      JObject
        ((fix fields (fs : list (string * JSON)) : list (string * JSON) :=
            match fs with
            | [] => []
            | (k, x) :: fs' => (k, on_the_wire x) :: fields fs'
            end) fs)
  | _ => v
  end.


(** An object literal [{k1: e1, ..., kn: en}] as [res.json] serialises it:
    a property whose value is [undefined] ([None]) is left out. *)
Fixpoint object_literal (props : list (string * option JSON))
  : list (string * JSON) :=
  match props with
  | [] => []
  | (k, Some v) :: rest => (k, v) :: object_literal rest
  | (_, None) :: rest => object_literal rest
  end.

(** [obj[k]] on a JSON object. *)
Fixpoint get_field (k : string) (fields : list (string * JSON))
  : option JSON :=
  match fields with
  | [] => None
  | (k', v) :: rest => if String.eqb k k' then Some v else get_field k rest
  end.

(** [x || d] for a string-or-undefined [x]: [undefined] and the empty
    string are falsy. *)
Definition or_default {A : Type} (inj : string -> A) (x : option string)
  (d : A) : A :=
  match x with
  | Some s => if String.eqb s "" then d else inj s
  | None => d
  end.

(** [`${x}`] for a string-or-undefined [x]. *)
Definition interpolate (x : option string) : string :=
  match x with
  | Some s => s
  | None => "undefined"
  end.

(** Every character of [s] satisfies [p]. *)
Fixpoint all_chars (p : ascii -> bool) (s : string) : bool :=
  match s with
  | EmptyString => true
  | String c rest => p c && all_chars p rest
  end.

(** [s.split(c)]. *)
Fixpoint split_on (c : ascii) (s : string) : list string :=
  match s with
  | EmptyString => [EmptyString]
  | String a rest =>
      if Ascii.eqb a c then EmptyString :: split_on c rest
      else match split_on c rest with
           | seg :: segs => String a seg :: segs
           | [] => [String a EmptyString]
           end
  end.

(** ASCII lower-casing, as a case-insensitive regular expression compares. *)
Definition lower_char (c : ascii) : ascii :=
  let n := nat_of_ascii c in
  if ((65 <=? n) && (n <=? 90))%nat then ascii_of_nat (n + 32) else c.

Fixpoint lower (s : string) : string :=
  match s with
  | EmptyString => EmptyString
  | String c rest => String (lower_char c) (lower rest)
  end.

(** A character other than the slash that separates path segments. *)
Definition not_slash (c : ascii) : bool := negb (Ascii.eqb c "/").

(** A character other than the percent sign that starts an escape. *)
Definition not_percent (c : ascii) : bool := negb (Ascii.eqb c "%").

(** [s] has a NUL character. *)
Fixpoint has_nul (s : string) : bool :=
  match s with
  | EmptyString => false
  | String c rest => Ascii.eqb c "000" || has_nul rest
  end.

(** [s[s.length - 1] === '/'] *)
Fixpoint ends_with_slash (s : string) : bool :=
  match s with
  | EmptyString => false
  | String c EmptyString => Ascii.eqb c "/"
  | String _ rest => ends_with_slash rest
  end.

(** The unreserved characters of a URL: letters, digits and [- . _ ~]. *)
Definition unreserved (c : ascii) : bool :=
  let n := nat_of_ascii c in
  (((65 <=? n) && (n <=? 90)) || ((97 <=? n) && (n <=? 122))
   || ((48 <=? n) && (n <=? 57))
   || (n =? 45) || (n =? 46) || (n =? 95) || (n =? 126))%nat.

(** The built-ins index.js and the framework call.  [None] stands for a
    thrown [SyntaxError] ([JSON_parse]) or [URIError]
    ([decodeURIComponent]).  [JSON.stringify] throws a [RangeError] on a
    value nested deeper than the stack of the engine allows:
    [stringify_depth] is that depth, and it is at least 2.  A string of
    unreserved characters has no escape to decode, and the characters
    before the first percent sign are taken as they are. *)
Class Builtins : Type := {
  JSON_parse : string -> option JSON;
  decodeURIComponent : string -> option string;
  toISOString : Z -> string;
  stringify_depth : nat;
  decodeURIComponent_unreserved :
    forall s, all_chars unreserved s = true -> decodeURIComponent s = Some s;
  decodeURIComponent_prefix :
    forall a b, all_chars not_percent a = true ->
      decodeURIComponent (a +:+ b)
      = option_map (String.append a) (decodeURIComponent b);
  stringify_depth_min : (2 <= stringify_depth)%nat
}.

(** The process the server runs in: [process.env], [process.version] and
    the clock [new Date()] reads, in milliseconds since the epoch. *)
Record Process : Type := {
  env : gmap string string;
  version : string;
  clock : Z
}.

Definition at_time (t : Z) (p : Process) : Process :=
  {| env := env p; version := version p; clock := t |}.

End JS.

(* ===================================================================== *)
(** ** The framework: requests, responses, layers and dispatch *)
(* ===================================================================== *)

Module Express.
Import JS.

Inductive Method : Type := GET | HEAD | POST | PUT | DELETE | PATCH | OPTIONS.

Definition method_eqb (a b : Method) : bool :=
  match a, b with
  | GET, GET | HEAD, HEAD | POST, POST | PUT, PUT
  | DELETE, DELETE | PATCH, PATCH | OPTIONS, OPTIONS => true
  | _, _ => false
  end.

(** An incoming request.  [payload] is [None] when the request announces
    no body (neither Content-Length nor Transfer-Encoding) and otherwise
    the body text as the parser reads it, inflated and decoded;
    [content_type] is the media type of the Content-Type header,
    lower-cased and without parameters; [coding_supported] tells whether
    the charset parameter and the Content-Encoding header are ones the
    body parser supports (a utf- charset, or none; identity, gzip or
    deflate, or none). *)
Record Request : Type := {
  method : Method;
  path : string;
  content_type : option string;
  coding_supported : bool;
  payload : option string
}.

(** What a response carries: a JSON document ([res.json]), as its reader
    gets it; a file of the static directory ([res.sendFile],
    [express.static]); the framework's own error page; or the redirect of
    [express.static] from a directory to its path with a final slash. *)
Inductive Content : Type :=
| Json (v : JSON)
| File (name : string)
| ErrorPage
| Redirect.

Record Response : Type := {
  status : Z;
  content : Content
}.

(** The request object the layers share: the request, [req.body]
    ([None] while it is [undefined]) and [req.params]. *)
Record Req : Type := {
  request : Request;
  body : option JSON;
  params : list (string * string)
}.

Definition incoming (r : Request) : Req :=
  {| request := r; body := None; params := [] |}.

Definition with_body (b : JSON) (req : Req) : Req :=
  {| request := request req; body := Some b; params := params req |}.

Definition with_params (ps : list (string * string)) (req : Req) : Req :=
  {| request := request req; body := body req; params := ps |}.

(** [req.params[k]]. *)
Fixpoint param (k : string) (ps : list (string * string)) : option string :=
  match ps with
  | [] => None
  | (k', v) :: rest => if String.eqb k k' then Some v else param k rest
  end.

(** What a middleware does with a request: pass it on ([next()]), answer
    it, or fail with an HTTP error ([next(err)], [err.status]). *)
Inductive Outcome : Type :=
| Next (req : Req)
| Send (res : Response)
| Throw (code : Z).

Definition Middleware : Type := Process -> Req -> Outcome.
Definition Handler : Type := Process -> Req -> Response.

(** [res.sendFile(f)] and [res.status(c).sendFile(f)]. *)
Definition res_sendFile (name : string) : Response :=
  {| status := 200; content := File name |}.

Definition res_status_sendFile (code : Z) (name : string) : Response :=
  {| status := code; content := File name |}.

(** The default error handler: the error's status and the framework's
    error page.  It also answers 404 when the stack is exhausted, and 500
    when a handler throws. *)
Definition finalhandler (code : Z) : Response :=
  {| status := code; content := ErrorPage |}.

(** *** Path patterns *)

(** A route path is a sequence of segments, literal or [:name]. *)
Inductive Seg : Type :=
| Lit (s : string)
| Par (name : string).

(** A path without its leading slash and without one optional trailing
    slash, cut at the slashes. *)
Fixpoint drop_last_empty (segs : list string) : list string :=
  match segs with
  | [] => []
  | s :: rest =>
      match rest with
      | [] => if String.eqb s "" then [] else [s]
      | _ :: _ => s :: drop_last_empty rest
      end
  end.

Definition segments (p : string) : option (list string) :=
  match split_on "/" p with
  | s :: segs => if String.eqb s "" then Some (drop_last_empty segs) else None
  | [] => None
  end.

Definition compile_seg (s : string) : Seg :=
  match s with
  | String ":" name => Par name
  | _ => Lit s
  end.

(** The pattern of a route path such as ["/api/greet/:name"]. *)
Definition compile_path (p : string) : list Seg :=
  match segments p with
  | Some segs => map compile_seg segs
  | None => [Lit p]
  end.

(** Matching with the router's defaults ([caseSensitive] and [strict]
    both off): literals compare without regard to case, a parameter takes
    one non-empty segment, one trailing slash is allowed.  The result
    lists the parameters, still percent-encoded. *)
Fixpoint match_segs (pat : list Seg) (segs : list string)
  : option (list (string * string)) :=
  match pat, segs with
  | [], [] => Some []
  | Lit l :: pat', s :: segs' =>
      if String.eqb (lower s) (lower l) then match_segs pat' segs' else None
  | Par n :: pat', s :: segs' =>
      if String.eqb s "" then None
      else match match_segs pat' segs' with
           | Some ps => Some ((n, s) :: ps)
           | None => None
           end
  | _, _ => None
  end.

Definition match_path (pat : list Seg) (p : string)
  : option (list (string * string)) :=
  match segments p with
  | Some segs => match_segs pat segs
  | None => None
  end.

(** A route registered for GET also answers HEAD. *)
Definition handles_method (route_method m : Method) : bool :=
  method_eqb route_method m
  || (method_eqb route_method GET && method_eqb m HEAD).

Section WithBuiltins.
Context `{!Builtins}.

(** [res.json(v)]: the document [JSON.stringify(v)] with status 200.
    When [JSON.stringify] throws, on a value nested too deep, the handler
    throws and the default error handler answers 500. *)
Definition res_json (v : JSON) : Response :=
  if (depth v <=? stringify_depth)%nat
  then {| status := 200; content := Json (on_the_wire v) |}
  else finalhandler 500.

(** The router decodes every parameter of a layer whose path matches
    with [decodeURIComponent]; a parameter that does not decode is an
    error with status 400 ("Failed to decode param"). *)
Fixpoint decode_params (raw : list (string * string))
  : option (list (string * string)) :=
  match raw with
  | [] => Some []
  | (k, v) :: rest =>
      match decodeURIComponent v, decode_params rest with
      | Some v', Some rest' => Some ((k, v') :: rest')
      | _, _ => None
      end
  end.

(** *** The layer stack *)

Inductive Layer : Type :=
| Use (mw : Middleware)
| Route (m : Method) (pat : list Seg) (h : Handler).

Definition app_use (mw : Middleware) : Layer := Use mw.
Definition app_get (p : string) (h : Handler) : Layer :=
  Route GET (compile_path p) h.
Definition app_post (p : string) (h : Handler) : Layer :=
  Route POST (compile_path p) h.

(** The dispatch loop.  Layers are tried in registration order.  A
    middleware passes the request on, answers it or fails; a route is
    skipped unless its path matches, its parameters are decoded before
    its method is looked at, and its handler answers.  No layer of this
    program handles errors, so a failure goes to the default error handler. *)
Fixpoint handle (p : Process) (stack : list Layer) (req : Req) : Response :=
  match stack with
  | [] => finalhandler 404
  | Use mw :: rest =>
      match mw p req with
      | Next req' => handle p rest req'
      | Send res => res
      | Throw code => finalhandler code
      end
  | Route m pat h :: rest =>
      match match_path pat (path (request req)) with
      | None => handle p rest req
      | Some raw =>
          match decode_params raw with
          | None => finalhandler 400
          | Some ps =>
              if handles_method m (method (request req))
              then h p (with_params ps req)
              else handle p rest req
          end
      end
  end.

(** A layer that is a route, and a route whose handler answers with
    status 200, or with 500 when it throws. *)
Definition is_route (l : Layer) : Prop :=
  match l with
  | Route _ _ _ => True
  | Use _ => False
  end.

Definition answers_ok (l : Layer) : Prop :=
  match l with
  | Route _ _ h =>
      forall p req, status (h p req) = 200%Z \/ status (h p req) = 500%Z
  | Use _ => False
  end.

(** *** express.static *)

(** What a request path names in the static directory: a file, or the
    directory itself. *)
Inductive Hit : Type :=
| FileHit (name : string)
| DirectoryHit.

(** [path.normalize] on the decoded path, taken from the directory: empty
    and single-dot segments go, a double-dot segment takes the segment
    before it away.  [None] when a double-dot segment would leave the
    directory (status 403, which falls through).  [kept] holds the
    segments so far, last first. *)
Fixpoint resolve (segs kept : list string) : option (list string) :=
  match segs with
  | [] => Some (rev kept)
  | s :: rest =>
      if String.eqb s "" || String.eqb s "." then resolve rest kept
      else if String.eqb s ".." then
        match kept with
        | [] => None
        | _ :: kept' => resolve rest kept'
        end
      else resolve rest (s :: kept)
  end.

(** The file [send] finds for a request path in a flat directory holding
    [files].  The path is decoded (a path that does not decode, or has a
    NUL, is status 400, which falls through) and normalised.  A path
    with a final slash asks for the index document of the directory it
    names; any other path asks for the file it names, and names a file
    only if its decoded form has no final slash. *)
Definition static_lookup (files : list string) (p : string) : option Hit :=
  match decodeURIComponent p with
  | None => None
  | Some d =>
      if has_nul d then None
      else
        match resolve (split_on "/" d) [] with
        | None => None
        | Some segs =>
            if ends_with_slash p then
              match segs with
              | [] =>
                  if existsb (String.eqb "index.html") files
                  then Some (FileHit "index.html") else None
              | _ :: _ => None
              end
            else
              match segs with
              | [] => Some DirectoryHit
              | [f] =>
                  if ends_with_slash d then None
                  else if existsb (String.eqb f) files
                       then Some (FileHit f) else None
              | _ :: _ :: _ => None
              end
        end
  end.

(** What [express.static] finds for a request: it looks only at GET and
    HEAD requests. *)
Definition static_file (files : list string) (r : Request) : option Hit :=
  match method r with
  | GET | HEAD => static_lookup files (path r)
  | _ => None
  end.

(** [express.static(root)] with its defaults ([index] is index.html,
    [fallthrough] and [redirect] are on): it answers a request for an
    existing file with the file, a request for the directory without a
    final slash with a redirect, and passes every other request on. *)
Definition express_static (files : list string) : Middleware :=
  fun _ req =>
    match static_file files (request req) with
    | Some (FileHit f) => Send (res_sendFile f)
    | Some DirectoryHit => Send {| status := 301; content := Redirect |}
    | None => Next req
    end.

(** *** express.json *)

(** The default body size limit, 100kb. *)
Definition json_limit : Z := 102400.

Definition is_whitespace (c : ascii) : bool :=
  let n := nat_of_ascii c in
  ((n =? 32) || (n =? 9) || (n =? 10) || (n =? 13))%nat.

(** The first character of the body that is not white space. *)
Fixpoint firstchar (s : string) : option ascii :=
  match s with
  | EmptyString => None
  | String c rest => if is_whitespace c then firstchar rest else Some c
  end.

(** Strict mode accepts only a body that starts an object or an array. *)
Definition strict_first (s : string) : bool :=
  match firstchar s with
  | Some c => Ascii.eqb c "{" || Ascii.eqb c "["
  | None => false
  end.

Definition is_json_type (ct : option string) : bool :=
  match ct with
  | Some t => String.eqb t "application/json"
  | None => false
  end.

(** What the parser makes of a request: nothing to parse, a parsed body,
    or a failure with its status. *)
Inductive Parsed : Type :=
| Skipped
| Body (v : JSON)
| Failed (code : Z).

(** The parser of [express.json()] with its defaults: [type] is
    application/json, [limit] is 100kb, [strict] is on (only objects and
    arrays are accepted).  A request without a body or of another type is
    skipped; an unsupported charset or content encoding fails with 415;
    a body over the limit fails with 413; an empty body is [{}]; a body
    whose first character after white space is neither an opening brace
    nor an opening bracket, or that [JSON.parse] refuses, fails with 400. *)
Definition read_json (r : Request) : Parsed :=
  match payload r with
  | None => Skipped
  | Some text =>
      if negb (is_json_type (content_type r)) then Skipped
      else if negb (coding_supported r) then Failed 415
      else if Z.ltb json_limit (Z.of_nat (String.length text)) then Failed 413
      else if String.eqb text "" then Body (JObject [])
      else if negb (strict_first text) then Failed 400
      else match JSON_parse text with
           | Some v => Body v
           | None => Failed 400
           end
  end.

(** The parser does not fail on the request. *)
Definition accepted (r : Request) : bool :=
  match read_json r with
  | Failed _ => false
  | _ => true
  end.

(** [req.body] once the parser has passed the request on. *)
Definition parsed_body (r : Request) : JSON :=
  match read_json r with
  | Body v => v
  | _ => JObject []
  end.

(** [express.json()]: [req.body] becomes [req.body || {}] first (an empty
    object if there was no body to parse or the type did not match), then
    the parsed body if there is one; a failure is passed to [next(err)]. *)
Definition express_json : Middleware :=
  fun _ req =>
    let req := with_body (default (JObject []) (body req)) req in
    match read_json (request req) with
    | Skipped => Next req
    | Body v => Next (with_body v req)
    | Failed code => Throw code
    end.

(** The request object as the layers after the parser see it. *)
Definition routed (r : Request) : Req :=
  {| request := r; body := Some (parsed_body r); params := [] |}.

(** The routes of a stack, and whether a route answers a request: its
    path matches and it handles the method. *)
Definition routes_of (stack : list Layer) : list (Method * list Seg) :=
  flat_map (fun l => match l with
                     | Route m pat _ => [(m, pat)]
                     | Use _ => []
                     end) stack.

Definition path_matches (pat : list Seg) (r : Request) : bool :=
  match match_path pat (path r) with
  | Some _ => true
  | None => false
  end.

Definition answers (route : Method * list Seg) (r : Request) : bool :=
  path_matches (snd route) r && handles_method (fst route) (method r).

(** Every parameter of every route whose path matches decodes. *)
Definition params_decode (routes : list (Method * list Seg)) (r : Request)
  : bool :=
  forallb (fun route =>
             match match_path (snd route) (path r) with
             | Some raw => match decode_params raw with
                           | Some _ => true
                           | None => false
                           end
             | None => true
             end) routes.

End WithBuiltins.
End Express.

(* ===================================================================== *)
(** ** The program: index.js *)
(* ===================================================================== *)

Module Server.
Import JS Express.

(** The value of [process.env.PORT || 3000]: the text of the variable
    when it is set and not empty, the number 3000 otherwise. *)
Inductive PortValue : Type :=
| PortNumber (n : Z)
| PortString (s : string).

(** [const PORT = process.env.PORT || 3000;] *)
Definition PORT (p : Process) : PortValue :=
  or_default PortString (env p !! "PORT") (PortNumber 3000).

(** [`${PORT}`] *)
Definition port_text (v : PortValue) : string :=
  match v with
  | PortNumber n => pretty n
  | PortString s => s
  end.

(** The files of the [public] directory (README, project structure). *)
Definition public : list string :=
  ["index.html"; "about.html"; "404.html"; "app.js"; "styles.css"].

(** [process.env.NODE_ENV || 'development'] *)
Definition environment (p : Process) : string :=
  or_default id (env p !! "NODE_ENV") "development".

Section WithBuiltins.
Context `{!Builtins}.

(** [new Date().toISOString()] *)
Definition timestamp (p : Process) : JSON :=
  JString (toISOString (clock p)).

(** [app.get('/', ...)] *)
Definition root : Handler :=
  fun _ _ => res_sendFile "index.html".

(** [app.get('/api/info', ...)] *)
Definition api_info : Handler :=
  fun p _ =>
    res_json (JObject (object_literal
      [("app", Some (JString "Deploy Test Application"));
       ("version", Some (JString "1.0.0"));
       ("timestamp", Some (timestamp p));
       ("environment", Some (JString (environment p)));
       ("node_version", Some (JString (version p)))])).

(** The greeting [`Hello, ${name}! Welcome to Azure App Service.`]. *)
Definition greeting (name : option string) : string :=
  "Hello, " +:+ interpolate name +:+ "! Welcome to Azure App Service.".

(** [app.get('/api/greet/:name', ...)] *)
Definition api_greet : Handler :=
  fun p req =>
    let name := param "name" (params req) in
    res_json (JObject (object_literal
      [("message", Some (JString (greeting name)));
       ("timestamp", Some (timestamp p))])).

(** [app.post('/api/echo', ...)] *)
Definition api_echo : Handler :=
  fun p req =>
    res_json (JObject (object_literal
      [("received", body req);
       ("timestamp", Some (timestamp p))])).

(** The 404 handler: [res.status(404).sendFile(.../404.html)]. *)
Definition not_found_page : Response := res_status_sendFile 404 "404.html".

Definition not_found : Middleware :=
  fun _ _ => Send not_found_page.

(** The application: its layers in the order index.js registers them. *)
Definition app : list Layer :=
  [ app_use (express_static public);
    app_use express_json;
    app_get "/" root;
    app_get "/api/info" api_info;
    app_get "/api/greet/:name" api_greet;
    app_post "/api/echo" api_echo;
    app_use not_found ].

(** The response of the server to one request. *)
Definition serve (p : Process) (r : Request) : Response :=
  handle p app (incoming r).

End WithBuiltins.

(** [app.listen(PORT, ...)]: the port the server binds and the two lines
    its callback logs. *)
Record Listening : Type := {
  port : PortValue;
  logged : list string
}.

Definition listen (p : Process) : Listening :=
  {| port := PORT p;
     logged := ["Server is running on port " +:+ port_text (PORT p);
                "Environment: " +:+ environment p] |}.

End Server.

(* ===================================================================== *)
(** ** Observations on responses *)
(* ===================================================================== *)

Module Observe.
Import JS Express.

(** The field [k] of a JSON response, if the response is a JSON object
    that has it. *)
Definition field (k : string) (res : Response) : option JSON :=
  match content res with
  | Json (JObject fs) => get_field k fs
  | _ => None
  end.

(** The names of the fields of a JSON response, in order. *)
Definition field_names (res : Response) : option (list string) :=
  match content res with
  | Json (JObject fs) => Some (map fst fs)
  | _ => None
  end.

(** A response with the value of the [timestamp] field of its JSON
    object blanked: what is left is the status, the names and order of
    the fields and every other value. *)
Definition blank_timestamp (kv : string * JSON) : string * JSON :=
  if String.eqb (fst kv) "timestamp" then (fst kv, JNull) else kv.

Definition without_timestamp (res : Response) : Response :=
  match content res with
  | Json (JObject fs) =>
      {| status := status res;
         content := Json (JObject (map blank_timestamp fs)) |}
  | _ => res
  end.

(** A layer whose answer depends on the clock through the value of the
    [timestamp] field only. *)
Definition clock_free (l : Layer) : Prop :=
  match l with
  | Use mw => forall p t req, mw (at_time t p) req = mw p req
  | Route _ _ h =>
      forall p t req,
        without_timestamp (h (at_time t p) req) = without_timestamp (h p req)
  end.

(** [t] occurs in [s] as a substring: [s.includes(t)]. *)
Fixpoint starts_with (t s : string) : bool :=
  match t, s with
  | EmptyString, _ => true
  | String a t', String b s' => Ascii.eqb a b && starts_with t' s'
  | String _ _, EmptyString => false
  end.

Fixpoint includes (s t : string) : bool :=
  starts_with t s ||
  match s with
  | EmptyString => false
  | String _ s' => includes s' t
  end.


End Observe.

(* ===================================================================== *)
(** ** A runnable instance of the built-ins *)
(* ===================================================================== *)

(** The theorems below hold for every implementation of [Builtins].  To
    run the model on concrete requests this module provides one: percent
    escapes decoded byte by byte, ISO-8601 rendering of the clock, and
    [JSON.parse] on a table of sample texts. *)
Module Sample.
Import JS Express Server.

Definition hex_value (c : ascii) : option nat :=
  let n := nat_of_ascii c in
  if ((48 <=? n) && (n <=? 57))%nat then Some (n - 48)%nat
  else if ((65 <=? n) && (n <=? 70))%nat then Some (n - 55)%nat
  else if ((97 <=? n) && (n <=? 102))%nat then Some (n - 87)%nat
  else None.

Fixpoint percent_decode (s : string) : option string :=
  match s with
  | EmptyString => Some EmptyString
  | String c rest =>
      if Ascii.eqb c "%" then
        match rest with
        | String a (String b rest') =>
            match hex_value a, hex_value b, percent_decode rest' with
            | Some x, Some y, Some r =>
                Some (String (ascii_of_nat (16 * x + y)) r)
            | _, _, _ => None
            end
        | _ => None
        end
      else
        match percent_decode rest with
        | Some r => Some (String c r)
        | None => None
        end
  end.

(** Decimal digits of [n], lowest [width] of them. *)
Fixpoint digits (width : nat) (n : Z) (acc : string) : string :=
  match width with
  | O => acc
  | S w =>
      digits w (n / 10)
        (String (ascii_of_nat (48 + Z.to_nat (n mod 10))) acc)
  end.

(** Year, month and day of a day number counted from 1970-01-01. *)
Definition civil_from_days (days : Z) : Z * Z * Z :=
  let z := days + 719468 in
  let era := z / 146097 in
  let doe := z - era * 146097 in
  let yoe := (doe - doe / 1460 + doe / 36524 - doe / 146096) / 365 in
  let doy := doe - (365 * yoe + yoe / 4 - yoe / 100) in
  let mp := (5 * doy + 2) / 153 in
  let d := doy - (153 * mp + 2) / 5 + 1 in
  let m := if (mp <? 10)%Z then mp + 3 else mp - 9 in
  let y := yoe + era * 400 + (if (m <=? 2)%Z then 1 else 0) in
  (y, m, d).

Definition year_text (y : Z) : string :=
  if ((0 <=? y) && (y <=? 9999))%Z then digits 4 y ""
  else (if (y <? 0)%Z then "-" else "+") +:+ digits 6 (Z.abs y) "".

Definition iso_string (t : Z) : string :=
  let ms := t mod 86400000 in
  let '(y, m, d) := civil_from_days (t / 86400000) in
  year_text y +:+ "-" +:+ digits 2 m "" +:+ "-" +:+ digits 2 d ""
  +:+ "T" +:+ digits 2 (ms / 3600000) ""
  +:+ ":" +:+ digits 2 (ms / 60000 mod 60) ""
  +:+ ":" +:+ digits 2 (ms / 1000 mod 60) ""
  +:+ "." +:+ digits 3 (ms mod 1000) "" +:+ "Z".

(** The double quote, and a quoted word. *)
Definition dq : string := String (ascii_of_nat 34) EmptyString.
Definition quoted (s : string) : string := dq +:+ s +:+ dq.

(** Sample body texts: an object, a bare string, a text that is not
    JSON, and an array of a number too large for a double. *)
Definition text_message_hi : string :=
  "{" +:+ quoted "message" +:+ ":" +:+ quoted "hi" +:+ "}".
Definition text_hi : string := quoted "hi".
Definition text_broken : string := "{" +:+ quoted "message" +:+ ":".
Definition text_huge : string := "[1e400]".

Definition value_message_hi : JSON := JObject [("message", JString "hi")].

Definition table_parse (s : string) : option JSON :=
  if String.eqb s text_message_hi then Some value_message_hi
  else if String.eqb s text_hi then Some (JString "hi")
  else if String.eqb s "[]" then Some (JArray [])
  else if String.eqb s text_huge then Some (JArray [JNumber (Infinite false)])
  else if String.eqb s "null" then Some JNull
  else None.

#[export, refine] Instance builtins : Builtins := {|
  JSON_parse := table_parse;
  decodeURIComponent := percent_decode;
  toISOString := iso_string;
  stringify_depth := 1000
|}.
Proof.
  - intros s. induction s as [|c s IH]; [reflexivity|].
    cbn [all_chars percent_decode]. intros [Hc Hs]%andb_true_iff.
    rewrite (IH Hs).
    destruct c as [[] [] [] [] [] [] [] []];
      first [reflexivity | vm_compute in Hc; discriminate Hc].
  - intros a b. induction a as [|c a IH].
    + intros _. change ("" +:+ b) with b.
      destruct (percent_decode b); reflexivity.
    + cbn [all_chars]. intros [Hc Ha]%andb_true_iff.
      change (String c a +:+ b) with (String c (a +:+ b)).
      cbn [percent_decode]. rewrite (IH Ha). unfold not_percent in Hc.
      apply negb_true_iff in Hc. rewrite Hc.
      destruct (percent_decode b); reflexivity.
  - apply Nat.leb_le. reflexivity.
Defined.

(** A process with no environment variable set, and the requests used as
    examples. *)
Definition process0 : Process :=
  {| env := ∅; version := "v20.11.0"; clock := 1700000000000 |}.

Definition with_env (k v : string) (p : Process) : Process :=
  {| env := <[k := v]> (env p); version := version p; clock := clock p |}.

Definition get (p : string) : Request :=
  {| method := GET; path := p; content_type := None;
     coding_supported := true; payload := None |}.

Definition post_json (p text : string) : Request :=
  {| method := POST; path := p;
     content_type := Some "application/json";
     coding_supported := true; payload := Some text |}.

Definition bare (m : Method) (p : string) : Request :=
  {| method := m; path := p; content_type := None;
     coding_supported := true; payload := None |}.

End Sample.

(* ===================================================================== *)
(** ** Requests that differ in one component, and stamped responses *)
(* ===================================================================== *)

Module Variants.
Import JS Express Server Observe.

(** The request [r] sent with method [m]. *)
Definition with_method (m : Method) (r : Request) : Request :=
  {| method := m; path := path r;
     content_type := content_type r;
     coding_supported := coding_supported r; payload := payload r |}.

(** The request [r] sent to path [q]. *)
Definition with_path (q : string) (r : Request) : Request :=
  {| method := method r; path := q;
     content_type := content_type r;
     coding_supported := coding_supported r; payload := payload r |}.

(** A pattern without parameters. *)
Definition literal_only (pat : list Seg) : bool :=
  forallb (fun sg => match sg with Lit _ => true | Par _ => false end) pat.

Section WithBuiltins.
Context `{!Builtins}.

(** A response that, when it is a JSON document, has a [timestamp] field
    holding the ISO-8601 text of the clock of [p]. *)
Definition stamped (p : Process) (res : Response) : Prop :=
  forall v, content res = Json v -> field "timestamp" res = Some (timestamp p).

(** A layer whose answers are stamped: a middleware never sends JSON, a
    route handler stamps what it sends. *)
Definition layer_stamped (l : Layer) : Prop :=
  match l with
  | Use mw => forall p req res v, mw p req = Send res -> content res <> Json v
  | Route _ _ h => forall p req, stamped p (h p req)
  end.

End WithBuiltins.
End Variants.

(* ===================================================================== *)
(** ** The page script: public/app.js *)
(* ===================================================================== *)

(** The request the page script sends for the system information, and
    the properties of the answer it renders. *)
Module Client.
Import JS Express Server Observe.

(** [loadSystemInfo]: [fetch('/api/info')], a GET request without a body,
    and the properties of the answer it renders ([data.app],
    [data.version], [data.environment], [data.node_version],
    [data.timestamp]). *)
Definition loadSystemInfo : Request :=
  {| method := GET; path := "/api/info"; content_type := None;
     coding_supported := true; payload := None |}.

Definition loadSystemInfo_reads : list string :=
  ["app"; "version"; "environment"; "node_version"; "timestamp"].

End Client.

(* ===================================================================== *)
(** ** The deployment script: the files left out of the package *)
(* ===================================================================== *)

Module Deploy.
Import JS.

(** [$s -like $pat]: wildcard match without regard to case; [*] stands
    for any run of characters and [?] for any one character.  Bracket
    ranges and the backtick escape, which the patterns of the script do
    not use, are read as plain characters. *)
Fixpoint like_from (pat : string) (s : string) {struct pat} : bool :=
  match pat with
  | EmptyString =>
      match s with
      | EmptyString => true
      | String _ _ => false
      end
  | String c pat' =>
      if Ascii.eqb c "*" then
        (fix star (s : string) : bool :=
           like_from pat' s
           || match s with
              | EmptyString => false
              | String _ s' => star s'
              end) s
      else
        match s with
        | EmptyString => false
        | String d s' =>
            (Ascii.eqb c "?" || Ascii.eqb (lower_char c) (lower_char d))
            && like_from pat' s'
        end
  end.

Definition like (s pat : string) : bool := like_from pat s.

(** [$excludePatterns = @("node_modules", ".git", "*.zip", "*.log", ".env")] *)
Definition excludePatterns : list string :=
  ["node_modules"; ".git"; "*.zip"; "*.log"; ".env"].

(** The body of [Where-Object]: the loop over the patterns, which stops
    at the first one the full name is like. *)
Fixpoint scan (FullName : string) (patterns : list string) : bool :=
  match patterns with
  | [] => false
  | pattern :: rest =>
      if like FullName ("*" +:+ pattern +:+ "*") then true
      else scan FullName rest
  end.

Definition shouldExclude (FullName : string) : bool :=
  scan FullName excludePatterns.

(** [$filesToZip]: the items the filter lets through. *)
Definition filesToZip (items : list string) : list string :=
  List.filter (fun FullName => negb (shouldExclude FullName)) items.

(** The words whose presence in a full name the patterns test. *)
Definition excluded_words : list string :=
  ["node_modules"; ".git"; ".zip"; ".log"; ".env"].

(** A text without wildcard characters. *)
Definition plain (c : ascii) : bool :=
  negb (Ascii.eqb c "*" || Ascii.eqb c "?").

End Deploy.

(* ===================================================================== *)
(** ** More sample requests *)
(* ===================================================================== *)

Module SampleRequests.
Import JS Express Sample.

(** A request with every component given. *)
Definition request_of (m : Method) (q : string) (ct : option string)
  (text : option string) : Request :=
  {| method := m; path := q; content_type := ct;
     coding_supported := true; payload := text |}.

(** A JSON array text of 102402 bytes: two brackets around 102400 spaces. *)
Definition long_text : string :=
  "[" +:+ Pos.iter (String " ") "]" 102400%positive.

End SampleRequests.

(* ===================================================================== *)
(** ** Properties of the server *)
(* ===================================================================== *)

Import JS Express Server Observe.

(** *** Strings and paths *)




Lemma append_cons (c : ascii) (t s : string) :
  String c t +:+ s = String c (t +:+ s).
Proof. reflexivity. Qed.

Lemma append_nil (s : string) : "" +:+ s = s.
Proof. reflexivity. Qed.

Lemma starts_with_app (t s : string) : starts_with t (t +:+ s) = true.
Proof.
  induction t as [|c t IH]; [reflexivity|].
  rewrite append_cons. cbn [starts_with].
  rewrite Ascii.eqb_refl. exact IH.
Qed.

Lemma includes_here (t s : string) : includes (t +:+ s) t = true.
Proof.
  destruct t as [|c t]; [destruct s; reflexivity|].
  rewrite append_cons. cbn [includes]. rewrite <- append_cons.
  rewrite starts_with_app. reflexivity.
Qed.

Lemma includes_app_l (a s t : string) :
  includes s t = true -> includes (a +:+ s) t = true.
Proof.
  intros Hs. induction a as [|c a IH]; [exact Hs|].
  rewrite append_cons. cbn [includes]. rewrite IH. apply orb_true_r.
Qed.

Lemma includes_middle (a t b : string) : includes (a +:+ t +:+ b) t = true.
Proof. apply includes_app_l, includes_here. Qed.

Lemma all_chars_impl (p q : ascii -> bool) (s : string) :
  (forall c, p c = true -> q c = true) ->
  all_chars p s = true -> all_chars q s = true.
Proof.
  intros Hpq. induction s as [|c s IH]; [reflexivity|].
  cbn. intros [Hc Hs]%andb_true_iff.
  rewrite (Hpq c Hc), (IH Hs). reflexivity.
Qed.

Lemma unreserved_not_slash (c : ascii) :
  unreserved c = true -> not_slash c = true.
Proof.
  destruct c as [[] [] [] [] [] [] [] []]; vm_compute; congruence.
Qed.

Lemma split_on_no_slash (s : string) :
  all_chars not_slash s = true -> split_on "/" s = [s].
Proof.
  induction s as [|c s IH]; [reflexivity|].
  cbn [all_chars split_on]. intros [Hc Hs]%andb_true_iff.
  unfold not_slash in Hc. apply negb_true_iff in Hc.
  rewrite Hc, (IH Hs). reflexivity.
Qed.

Lemma eqb_empty_false (s : string) : s <> "" -> String.eqb s "" = false.
Proof. intros Hs. apply String.eqb_neq. exact Hs. Qed.

(** The segments of a greeting path. *)
Lemma segments_greet (seg : string) :
  seg <> "" -> all_chars not_slash seg = true ->
  segments ("/api/greet/" +:+ seg) = Some ["api"; "greet"; seg].
Proof.
  intros Hne Hns. unfold segments.
  rewrite !append_cons, append_nil. cbn.
  rewrite (split_on_no_slash seg Hns). cbn.
  rewrite (eqb_empty_false seg Hne). reflexivity.
Qed.

(** *** Dispatch through the stack of index.js *)

Section Dispatch.
Context `{!Builtins}.

Lemma serve_static (p : Process) (r : Request) (f : string) :
  static_file public r = Some (FileHit f) -> serve p r = res_sendFile f.
Proof.
  intros Hf. unfold serve, app. cbn [handle app_use].
  unfold express_static at 1. cbn [request incoming]. rewrite Hf. reflexivity.
Qed.

Lemma serve_redirect (p : Process) (r : Request) :
  static_file public r = Some DirectoryHit ->
  serve p r = {| status := 301; content := Redirect |}.
Proof.
  intros Hf. unfold serve, app. cbn [handle app_use].
  unfold express_static at 1. cbn [request incoming]. rewrite Hf. reflexivity.
Qed.

(** [res.json] on a value of depth at most 2. *)
Lemma res_json_shallow (v : JSON) :
  (depth v <= 2)%nat ->
  res_json v = {| status := 200; content := Json (on_the_wire v) |}.
Proof.
  intros Hd. unfold res_json.
  destruct (Nat.leb_spec (depth v) stringify_depth) as [_ | Hlt];
    [reflexivity|].
  pose proof stringify_depth_min. lia.
Qed.

Lemma res_json_status (v : JSON) :
  status (res_json v) = 200%Z \/ status (res_json v) = 500%Z.
Proof.
  unfold res_json. destruct (depth v <=? stringify_depth)%nat;
    [left | right]; reflexivity.
Qed.

Lemma append_nil_r (s : string) : s +:+ "" = s.
Proof.
  induction s as [|c s IH]; [reflexivity|].
  rewrite append_cons, IH. reflexivity.
Qed.

(** A string without a percent sign has no escape to decode. *)
Lemma decodeURIComponent_plain (s : string) :
  all_chars not_percent s = true -> decodeURIComponent s = Some s.
Proof.
  intros Hs. rewrite <- (append_nil_r s) at 1.
  rewrite (decodeURIComponent_prefix s "" Hs).
  rewrite (decodeURIComponent_unreserved "" eq_refl).
  cbn [option_map]. rewrite append_nil_r. reflexivity.
Qed.

(** A path whose tail does not decode names no static file. *)
Lemma static_lookup_undecodable (files : list string) (a b : string) :
  all_chars not_percent a = true -> decodeURIComponent b = None ->
  static_lookup files (a +:+ b) = None.
Proof.
  intros Ha Hb. unfold static_lookup.
  rewrite (decodeURIComponent_prefix a b Ha), Hb. reflexivity.
Qed.

(** A literal path, without escapes, is looked up as it is written. *)
Lemma static_lookup_plain (q : string) :
  all_chars not_percent q = true ->
  static_lookup public q
  = if has_nul q then None
    else
      match resolve (split_on "/" q) [] with
      | None => None
      | Some segs =>
          if ends_with_slash q then
            match segs with
            | [] => Some (FileHit "index.html")
            | _ :: _ => None
            end
          else
            match segs with
            | [] => Some DirectoryHit
            | [f] =>
                if ends_with_slash q then None
                else if existsb (String.eqb f) public
                     then Some (FileHit f) else None
            | _ :: _ :: _ => None
            end
      end.
Proof.
  intros Hq. unfold static_lookup.
  rewrite (decodeURIComponent_plain q Hq). reflexivity.
Qed.

Lemma serve_failed (p : Process) (r : Request) (code : Z) :
  static_file public r = None -> read_json r = Failed code ->
  serve p r = finalhandler code.
Proof.
  intros Hf Hj. unfold serve, app. cbn [handle app_use].
  unfold express_static at 1. cbn [request incoming]. rewrite Hf.
  unfold express_json at 1. cbn. rewrite Hj. reflexivity.
Qed.

Lemma serve_routed (p : Process) (r : Request) :
  static_file public r = None -> accepted r = true ->
  serve p r = handle p (drop 2 app) (routed r).
Proof.
  intros Hf Hj. unfold serve, app. cbn [handle app_use drop].
  unfold express_static at 1. cbn [request incoming]. rewrite Hf.
  unfold express_json at 1. cbn [request incoming with_body body default].
  unfold accepted in Hj. unfold routed, parsed_body.
  destruct (read_json r); [reflexivity | reflexivity | discriminate].
Qed.

End Dispatch.

(** *** What each route answers *)

Section Routes.
Context `{!Builtins}.

Lemma static_file_info (r : Request) :
  path r = "/api/info" -> static_file public r = None.
Proof.
  intros Hp. unfold static_file. rewrite Hp.
  rewrite static_lookup_plain by reflexivity.
  destruct (method r); reflexivity.
Qed.

Lemma serve_api_info (p : Process) (r : Request) :
  method r = GET -> path r = "/api/info" -> accepted r = true ->
  serve p r =
  {| status := 200;
     content := Json (JObject
       [("app", JString "Deploy Test Application");
        ("version", JString "1.0.0");
        ("timestamp", JString (toISOString (clock p)));
        ("environment", JString (environment p));
        ("node_version", JString (version p))]) |}.
Proof.
  intros Hm Hp Hj.
  rewrite (serve_routed p r (static_file_info r Hp) Hj).
  destruct r as [m pth ct cs pl]. cbn in Hm, Hp. subst m pth.
  transitivity (res_json (JObject
       [("app", JString "Deploy Test Application");
        ("version", JString "1.0.0");
        ("timestamp", JString (toISOString (clock p)));
        ("environment", JString (environment p));
        ("node_version", JString (version p))])); [reflexivity|].
  rewrite res_json_shallow by (cbn; lia). reflexivity.
Qed.

Lemma all_chars_app (q : ascii -> bool) (a b : string) :
  all_chars q a = true -> all_chars q b = true ->
  all_chars q (a +:+ b) = true.
Proof.
  intros Ha Hb. induction a as [|c a IH]; [exact Hb|].
  rewrite append_cons. cbn [all_chars] in *.
  apply andb_true_iff in Ha as [-> Ha]. exact (IH Ha).
Qed.

Lemma has_nul_app (a b : string) :
  has_nul (a +:+ b) = has_nul a || has_nul b.
Proof.
  induction a as [|c a IH]; [reflexivity|].
  rewrite append_cons. cbn [has_nul]. rewrite IH. apply orb_assoc.
Qed.

Lemma unreserved_not_percent (c : ascii) :
  unreserved c = true -> not_percent c = true.
Proof.
  destruct c as [[] [] [] [] [] [] [] []]; vm_compute; congruence.
Qed.

Lemma unreserved_no_nul (s : string) :
  all_chars unreserved s = true -> has_nul s = false.
Proof.
  induction s as [|c s IH]; [reflexivity|].
  cbn [all_chars has_nul]. intros [Hc Hs]%andb_true_iff.
  rewrite (IH Hs), orb_false_r.
  destruct c as [[] [] [] [] [] [] [] []];
    first [reflexivity | vm_compute in Hc; discriminate Hc].
Qed.

Lemma split_on_greet (name : string) :
  all_chars not_slash name = true ->
  split_on "/" ("/api/greet/" +:+ name) = [""; "api"; "greet"; name].
Proof.
  intros Hns. rewrite !append_cons, append_nil. cbn.
  rewrite (split_on_no_slash name Hns). reflexivity.
Qed.

Lemma resolve_greet (name : string) :
  resolve [""; "api"; "greet"; name] []
  = if String.eqb name "" || String.eqb name "." then Some ["api"; "greet"]
    else if String.eqb name ".." then Some ["api"]
    else Some ["api"; "greet"; name].
Proof. reflexivity. Qed.

(** A greeting path with a name of unreserved characters names no static
    file: its first segment is not a file of the public directory. *)
Lemma static_file_greet (r : Request) (name : string) :
  path r = "/api/greet/" +:+ name -> all_chars unreserved name = true ->
  static_file public r = None.
Proof.
  intros Hp Hsafe. unfold static_file. rewrite Hp.
  rewrite static_lookup_plain
    by (apply all_chars_app;
        [reflexivity
        | exact (all_chars_impl _ _ name unreserved_not_percent Hsafe)]).
  rewrite has_nul_app, (unreserved_no_nul name Hsafe).
  change (has_nul "/api/greet/") with false. cbn [orb].
  rewrite (split_on_greet name
             (all_chars_impl _ _ name unreserved_not_slash Hsafe)).
  rewrite resolve_greet.
  destruct (String.eqb name "" || String.eqb name ".");
    [| destruct (String.eqb name "..")];
    destruct (ends_with_slash _); destruct (method r); reflexivity.
Qed.

Lemma serve_api_greet (p : Process) (r : Request) (seg name : string) :
  method r = GET -> path r = "/api/greet/" +:+ seg ->
  seg <> "" -> all_chars not_slash seg = true ->
  decodeURIComponent seg = Some name ->
  static_file public r = None -> accepted r = true ->
  serve p r =
  {| status := 200;
     content := Json (JObject
       [("message", JString (greeting (Some name)));
        ("timestamp", JString (toISOString (clock p)))]) |}.
Proof.
  intros Hm Hp Hne Hns Hdec Hf Hj.
  rewrite (serve_routed p r Hf Hj).
  cbn [drop app app_get app_post app_use handle routed request].
  unfold match_path. rewrite Hp, (segments_greet seg Hne Hns), Hm.
  change (compile_path "/") with (@nil Seg).
  change (compile_path "/api/info") with [Lit "api"; Lit "info"].
  change (compile_path "/api/greet/:name")
    with [Lit "api"; Lit "greet"; Par "name"].
  cbn [match_segs].
  change (String.eqb (lower "api") (lower "api")) with true.
  change (String.eqb (lower "greet") (lower "info")) with false.
  change (String.eqb (lower "greet") (lower "greet")) with true.
  cbn iota. rewrite (eqb_empty_false seg Hne).
  cbn [decode_params]. rewrite Hdec.
  cbn [handles_method method_eqb orb api_greet with_params params param
       String.eqb object_literal].
  change (String.eqb "name" "name") with true. cbn iota.
  transitivity (res_json (JObject
       [("message", JString (greeting (Some name)));
        ("timestamp", JString (toISOString (clock p)))])); [reflexivity|].
  rewrite res_json_shallow by (cbn; lia). reflexivity.
Qed.







End Routes.

(** *** Falling through the routes *)

Section Fallthrough.
Context `{!Builtins}.

Lemma handle_skip_routes (p : Process) (routes rest : list Layer) (req : Req) :
  Forall is_route routes ->
  existsb (fun rt => answers rt (request req)) (routes_of routes) = false ->
  params_decode (routes_of routes) (request req) = true ->
  handle p (routes ++ rest) req = handle p rest req.
Proof.
  induction 1 as [|l routes Hl _ IH]; [reflexivity|].
  destruct l as [mw | m pat h]; [destruct Hl|].
  change (routes_of (Route m pat h :: routes))
    with ((m, pat) :: routes_of routes).
  unfold params_decode. cbn [existsb forallb].
  fold (params_decode (routes_of routes) (request req)).
  intros [Hhere Hans]%orb_false_iff [Hd Hdec]%andb_true_iff.
  unfold answers, path_matches in Hhere. cbn [fst snd] in Hhere, Hd.
  rewrite <- app_comm_cons. cbn [handle].
  destruct (match_path pat (path (request req))) as [raw|];
    [| exact (IH Hans Hdec)].
  destruct (decode_params raw); [| discriminate Hd].
  cbn [andb] in Hhere. rewrite Hhere. exact (IH Hans Hdec).
Qed.

Lemma handle_fallback_only (p : Process) (routes : list Layer) (req : Req) :
  Forall answers_ok routes ->
  handle p (routes ++ [app_use not_found]) req = not_found_page ->
  existsb (fun rt => answers rt (request req)) (routes_of routes) = false.
Proof.
  induction 1 as [|l routes Hl _ IH]; [reflexivity|].
  destruct l as [mw | m pat h]; [destruct Hl|].
  change (routes_of (Route m pat h :: routes))
    with ((m, pat) :: routes_of routes).
  cbn [existsb]. unfold answers at 1, path_matches. cbn [fst snd].
  rewrite <- app_comm_cons. cbn [handle].
  destruct (match_path pat (path (request req))) as [raw|]; [| exact IH].
  destruct (decode_params raw) as [ps|]; [| discriminate].
  destruct (handles_method m (method (request req))); [| exact IH].
  intros Hres. specialize (Hl p (with_params ps req)).
  rewrite Hres in Hl. destruct Hl as [Hl | Hl]; discriminate Hl.
Qed.

Lemma app_routes_ok : Forall answers_ok (take 4 (drop 2 app)).
Proof.
  cbn [take drop app]. repeat (constructor; [intros p req |]).
  - left. reflexivity.
  - apply res_json_status.
  - apply res_json_status.
  - apply res_json_status.
  - constructor.
Qed.

Lemma app_split :
  drop 2 app = (take 4 (drop 2 app) ++ [app_use not_found])%list.
Proof. reflexivity. Qed.

Lemma routes_of_app :
  routes_of app = routes_of (take 4 (drop 2 app)).
Proof. reflexivity. Qed.

Lemma answers_ok_is_route (l : Layer) : answers_ok l -> is_route l.
Proof. destruct l; [intros [] | constructor]. Qed.

(** A request no route answers, with no static file and a body the parser
    accepts, gets the answer of the 404 handler. *)
Lemma serve_fallback (p : Process) (r : Request) :
  static_file public r = None -> accepted r = true ->
  existsb (fun rt => answers rt r) (routes_of app) = false ->
  params_decode (routes_of app) r = true ->
  serve p r = not_found_page.
Proof.
  intros Hf Hj Hans Hdec. rewrite (serve_routed p r Hf Hj), app_split.
  rewrite handle_skip_routes.
  - reflexivity.
  - eapply Forall_impl; [exact app_routes_ok | exact answers_ok_is_route].
  - rewrite <- routes_of_app. exact Hans.
  - rewrite <- routes_of_app. exact Hdec.
Qed.

(** Only a request no route answers gets the answer of the 404 handler. *)
Lemma serve_fallback_only (p : Process) (r : Request) :
  serve p r = not_found_page ->
  existsb (fun rt => answers rt r) (routes_of app) = false.
Proof.
  intros Hres.
  destruct (static_file public r) as [[f|]|] eqn:Hf.
  { rewrite (serve_static p r f Hf) in Hres. discriminate Hres. }
  { rewrite (serve_redirect p r Hf) in Hres. discriminate Hres. }
  destruct (read_json r) as [| v | code] eqn:Hj.
  3: { rewrite (serve_failed p r code Hf Hj) in Hres. discriminate Hres. }
  all: rewrite serve_routed, app_split in Hres;
    [| exact Hf | unfold accepted; rewrite Hj; reflexivity];
    rewrite routes_of_app;
    exact (handle_fallback_only p _ (routed r) app_routes_ok Hres).
Qed.

End Fallthrough.

(** *** The clock and the responses *)

Section Clock.
Context `{!Builtins}.

Lemma handle_clock_free (stack : list Layer) :
  Forall clock_free stack ->
  forall p t req,
    without_timestamp (handle (at_time t p) stack req)
    = without_timestamp (handle p stack req).
Proof.
  induction 1 as [|l stack Hl _ IH]; intros p t req; [reflexivity|].
  destruct l as [mw | m pat h]; cbn [handle clock_free] in *.
  - rewrite Hl. destruct (mw p req); [apply IH | reflexivity | reflexivity].
  - destruct (match_path pat (path (request req))) as [raw|]; [| apply IH].
    destruct (decode_params raw) as [ps|]; [| reflexivity].
    destruct (handles_method m (method (request req))); [apply Hl | apply IH].
Qed.

Lemma app_clock_free : Forall clock_free app.
Proof.
  repeat constructor; intros p t req; try reflexivity.
  - unfold api_info. rewrite !res_json_shallow by (cbn; lia). reflexivity.
  - unfold api_greet. rewrite !res_json_shallow by (cbn; lia). reflexivity.
  - unfold api_echo, res_json. cbn [object_literal].
    destruct (body req) as [v|].
    + change (depth (JObject [("received", v);
                              ("timestamp", timestamp (at_time t p))]))
        with (depth (JObject [("received", v); ("timestamp", timestamp p)])).
      destruct (_ <=? _)%nat; reflexivity.
    + change (depth (JObject [("timestamp", timestamp (at_time t p))]))
        with (depth (JObject [("timestamp", timestamp p)])).
      destruct (_ <=? _)%nat; reflexivity.
Qed.

End Clock.

(** *** Routes have different paths *)

Section Disjoint.
Context `{!Builtins}.

Lemma routes_of_app_eq :
  routes_of app =
  [(GET, []);
   (GET, [Lit "api"; Lit "info"]);
   (GET, [Lit "api"; Lit "greet"; Par "name"]);
   (POST, [Lit "api"; Lit "echo"])].
Proof. reflexivity. Qed.

Lemma eqb_two_literals (s a b : string) :
  String.eqb s a = true -> String.eqb s b = true -> a = b.
Proof.
  intros Ha%String.eqb_eq Hb%String.eqb_eq. congruence.
Qed.

(** A path matches the pattern of at most one route. *)
Lemma routes_disjoint (r : Request) (rt1 rt2 : Method * list Seg) :
  In rt1 (routes_of app) -> In rt2 (routes_of app) ->
  path_matches (snd rt1) r = true -> path_matches (snd rt2) r = true ->
  rt1 = rt2.
Proof.
  rewrite routes_of_app_eq. unfold path_matches, match_path.
  destruct (segments (path r)) as [segs|]; [| intros; discriminate].
  intros H1 H2.
  cbn [In] in H1, H2.
  destruct H1 as [<- | [<- | [<- | [<- | []]]]];
  destruct H2 as [<- | [<- | [<- | [<- | []]]]];
  try reflexivity; cbn [snd];
  destruct segs as [|s1 [|s2 [|s3 [|s4 segs]]]]; cbn [match_segs];
  try (intros; discriminate);
  destruct (String.eqb (lower s1) (lower "api")); try (intros; discriminate);
  destruct (String.eqb (lower s2) (lower "info")) eqn:E1;
  destruct (String.eqb (lower s2) (lower "echo")) eqn:E2;
  destruct (String.eqb (lower s2) (lower "greet")) eqn:E3;
  try (intros; discriminate); try (intros ? ?; discriminate);
  pose proof (eqb_two_literals _ _ _ E1 E2) as E; vm_compute in E;
  discriminate E.
Qed.

End Disjoint.

(* ===================================================================== *)
(** ** The contract of the routes *)
(* ===================================================================== *)

Section Contract.
Context `{!Builtins}.


(** C2, as amended.  A GET request to /api/info that the body parser
    accepts is answered with status 200 and a JSON object whose fields
    are exactly app, version, timestamp, environment and node_version, in
    this order; timestamp is the ISO-8601 text of the current time. *)
Theorem info_fields (p : Process) (r : Request) :
  method r = GET -> path r = "/api/info" -> accepted r = true ->
  status (serve p r) = 200%Z
  /\ field_names (serve p r)
     = Some ["app"; "version"; "timestamp"; "environment"; "node_version"]
  /\ field "timestamp" (serve p r) = Some (JString (toISOString (clock p))).
Proof.
  intros Hm Hp Hj. rewrite (serve_api_info p r Hm Hp Hj).
  repeat split.
Qed.

(** C3, as amended.  For a path segment that is not empty and decodes to
    [name], a GET request to /api/greet/{segment} whose path, decoded and
    normalised, names no static file, and that the body parser accepts,
    is answered with status 200 and a JSON object of two fields: message,
    equal to "Hello, {name}! Welcome to Azure App Service.", and
    timestamp, the ISO-8601 text of the current time. *)
Theorem greet_message (p : Process) (r : Request) (seg name : string) :
  method r = GET -> path r = "/api/greet/" +:+ seg ->
  seg <> "" -> all_chars not_slash seg = true ->
  decodeURIComponent seg = Some name ->
  static_file public r = None ->
  accepted r = true ->
  status (serve p r) = 200%Z
  /\ field_names (serve p r) = Some ["message"; "timestamp"]
  /\ field "message" (serve p r)
     = Some (JString ("Hello, " +:+ name +:+ "! Welcome to Azure App Service."))
  /\ field "timestamp" (serve p r) = Some (JString (toISOString (clock p))).
Proof.
  intros Hm Hp Hne Hns Hdec Hf Hj.
  rewrite (serve_api_greet p r seg name Hm Hp Hne Hns Hdec Hf Hj).
  repeat split.
Qed.


(** C5, as amended.  A request that finds no static file, that the body
    parser accepts and whose path matches no route is answered with
    status 404 and the file 404.html; and only a request that no route
    answers gets this response, so the 404 handler never shadows a route. *)
Theorem unmatched_is_not_found (p : Process) (r : Request) :
  (static_file public r = None -> accepted r = true ->
   existsb (fun rt => path_matches (snd rt) r) (routes_of app) = false ->
   serve p r = {| status := 404; content := File "404.html" |})
  /\ (serve p r = {| status := 404; content := File "404.html" |} ->
      existsb (fun rt => answers rt r) (routes_of app) = false).
Proof.
  split; [| exact (serve_fallback_only p r)].
  intros Hf Hj Hnone. apply (serve_fallback p r Hf Hj).
  - rewrite routes_of_app_eq in *. cbn [existsb fst snd] in *.
    unfold answers. cbn [fst snd].
    repeat (apply orb_false_iff in Hnone as [-> Hnone]). reflexivity.
  - rewrite routes_of_app_eq in *. cbn [existsb fst snd] in Hnone.
    unfold params_decode. cbn [forallb fst snd].
    unfold path_matches in Hnone.
    repeat (apply orb_false_iff in Hnone as [Hhere Hnone];
            destruct (match_path _ (path r)); [discriminate Hhere | clear Hhere]).
    reflexivity.
Qed.

(** C6.  For a name made of URL-safe characters, the message field of
    the answer to GET /api/greet/{name} contains the name; and when the
    name is not empty and the body parser accepts the request, the answer
    has a message field. *)
Theorem greet_message_contains_name (p : Process) (r : Request) (name : string) :
  method r = GET -> path r = "/api/greet/" +:+ name ->
  all_chars unreserved name = true ->
  (forall v, field "message" (serve p r) = Some v ->
             exists m, v = JString m /\ includes m name = true)
  /\ (name <> "" -> accepted r = true ->
      exists m, field "message" (serve p r) = Some (JString m)).
Proof.
  intros Hm Hp Hsafe.
  assert (Hns : all_chars not_slash name = true)
    by exact (all_chars_impl _ _ name unreserved_not_slash Hsafe).
  pose proof (decodeURIComponent_unreserved name Hsafe) as Hdec.
  pose proof (static_file_greet r name Hp Hsafe) as Hf.
  split.
  - intros v Hv.
    destruct (accepted r) eqn:Hj.
    + destruct name as [|c name].
      * rewrite (serve_routed p r Hf Hj) in Hv.
        destruct r as [m pth ct cs pl]. cbn in Hm, Hp. subst m pth.
        discriminate Hv.
      * rewrite (serve_api_greet p r _ _ Hm Hp ltac:(discriminate) Hns Hdec
                   Hf Hj) in Hv.
        injection Hv as <-. eexists. split; [reflexivity|].
        apply includes_middle.
    + unfold accepted in Hj.
      destruct (read_json r) as [| b | code] eqn:Hr; try discriminate Hj.
      rewrite (serve_failed p r code Hf Hr) in Hv. discriminate Hv.
  - intros Hne Hj.
    rewrite (serve_api_greet p r _ _ Hm Hp Hne Hns Hdec Hf Hj).
    eexists. reflexivity.
Qed.

(** C7, as amended.  The environment field of the /api/info response is
    "development" when NODE_ENV is unset or empty, and the value of
    NODE_ENV otherwise. *)
Theorem info_environment (p : Process) (r : Request) :
  method r = GET -> path r = "/api/info" -> accepted r = true ->
  field "environment" (serve p r)
  = Some (JString
      match env p !! "NODE_ENV" with
      | None => "development"
      | Some s => if String.eqb s "" then "development" else s
      end).
Proof.
  intros Hm Hp Hj. rewrite (serve_api_info p r Hm Hp Hj).
  unfold environment, or_default.
  destruct (env p !! "NODE_ENV"); reflexivity.
Qed.

(** C8.  Two answers to the same request, in the same environment and
    runtime, at two readings of the clock, are equal once the timestamp
    field is removed. *)
Theorem responses_differ_in_timestamp_only
  (p : Process) (r : Request) (t1 t2 : Z) :
  without_timestamp (serve (at_time t1 p) r)
  = without_timestamp (serve (at_time t2 p) r).
Proof.
  unfold serve.
  rewrite (handle_clock_free app app_clock_free p t1).
  rewrite (handle_clock_free app app_clock_free p t2).
  reflexivity.
Qed.

(** C9.  The port the server listens on is the value of PORT when the
    variable is set (and not empty), and 3000 when it is unset. *)
Theorem listening_port (p : Process) :
  (env p !! "PORT" = None -> port (listen p) = PortNumber 3000)
  /\ (forall s, env p !! "PORT" = Some s -> s <> "" ->
                port (listen p) = PortString s).
Proof.
  unfold listen, PORT, or_default. cbn [port]. split.
  - intros ->. reflexivity.
  - intros s -> Hne. rewrite (eqb_empty_false s Hne). reflexivity.
Qed.

(** C10, as amended.  A request whose path matches a route that does not
    handle its method, that finds no static file, that the body parser
    accepts and whose path parameters decode, is answered like an
    undefined path: status 404 and the file 404.html. *)
Theorem wrong_method_is_not_found
  (p : Process) (r : Request) (route : Method * list Seg) :
  In route (routes_of app) ->
  path_matches (snd route) r = true ->
  handles_method (fst route) (method r) = false ->
  static_file public r = None -> accepted r = true ->
  params_decode (routes_of app) r = true ->
  serve p r = {| status := 404; content := File "404.html" |}.
Proof.
  intros Hin Hpath Hmeth Hf Hj Hdec.
  apply (serve_fallback p r Hf Hj); [| exact Hdec].
  apply not_true_iff_false. intros Hex.
  apply existsb_exists in Hex as (rt & Hrt & Hans).
  unfold answers in Hans. apply andb_true_iff in Hans as [Hpath' Hmeth'].
  rewrite (routes_disjoint r rt route Hrt Hin Hpath' Hpath) in Hmeth'.
  congruence.
Qed.

End Contract.

(* ===================================================================== *)
(** ** The contract on sample requests *)
(* ===================================================================== *)

Import Sample.



(** The info object has a node_version field and no runtime_version
    field. *)
Lemma info_field_is_node_version :
  field_names (serve process0 (get "/api/info"))
  = Some ["app"; "version"; "timestamp"; "environment"; "node_version"]
  /\ field "runtime_version" (serve process0 (get "/api/info")) = None
  /\ field "node_version" (serve process0 (get "/api/info"))
     = Some (JString "v20.11.0").
Proof. repeat split. Qed.

Lemma info_fields_witness :
  method (get "/api/info") = GET
  /\ path (get "/api/info") = "/api/info"
  /\ accepted (get "/api/info") = true
  /\ status (serve process0 (get "/api/info")) = 200%Z
  /\ field_names (serve process0 (get "/api/info"))
     = Some ["app"; "version"; "timestamp"; "environment"; "node_version"]
  /\ field "timestamp" (serve process0 (get "/api/info"))
     = Some (JString "2023-11-14T22:13:20.000Z").
Proof.
  do 3 (split; [reflexivity|]).
  exact (info_fields process0 (get "/api/info") eq_refl eq_refl eq_refl).
Defined.

(** The greeting for World ends in "Welcome to Azure App Service.", not
    in "Welcome.". *)
Lemma greet_world_message :
  field "message" (serve process0 (get "/api/greet/World"))
  = Some (JString "Hello, World! Welcome to Azure App Service.")
  /\ field "message" (serve process0 (get "/api/greet/World"))
     <> Some (JString "Hello, World! Welcome.").
Proof. split; [reflexivity | discriminate]. Qed.

Lemma greet_message_witness :
  method (get "/api/greet/Ada%20L") = GET
  /\ path (get "/api/greet/Ada%20L") = "/api/greet/" +:+ "Ada%20L"
  /\ "Ada%20L" <> ""
  /\ all_chars not_slash "Ada%20L" = true
  /\ decodeURIComponent "Ada%20L" = Some "Ada L"
  /\ static_file public (get "/api/greet/Ada%20L") = None
  /\ accepted (get "/api/greet/Ada%20L") = true
  /\ status (serve process0 (get "/api/greet/Ada%20L")) = 200%Z
  /\ field_names (serve process0 (get "/api/greet/Ada%20L"))
     = Some ["message"; "timestamp"]
  /\ field "message" (serve process0 (get "/api/greet/Ada%20L"))
     = Some (JString "Hello, Ada L! Welcome to Azure App Service.")
  /\ field "timestamp" (serve process0 (get "/api/greet/Ada%20L"))
     = Some (JString "2023-11-14T22:13:20.000Z").
Proof.
  do 2 (split; [reflexivity|]). split; [discriminate|].
  do 4 (split; [reflexivity|]).
  assert (Hne : "Ada%20L" <> "") by discriminate.
  exact (greet_message process0 (get "/api/greet/Ada%20L") "Ada%20L" "Ada L"
           eq_refl eq_refl Hne eq_refl eq_refl eq_refl eq_refl).
Defined.



(** A body with a number beyond the range of a double parses to an
    infinity, which JSON.stringify writes as null: [received] does not
    deep-equal the parsed body. *)
Lemma echo_infinity_is_null :
  JSON_parse text_huge = Some (JArray [JNumber (Infinite false)])
  /\ field "received" (serve process0 (post_json "/api/echo" text_huge))
     = Some (JArray [JNull])
  /\ deep_equal (JArray [JNull]) (JArray [JNumber (Infinite false)]) = false.
Proof. repeat split. Qed.

(** A greeting path whose segment decodes to a path back into the
    public directory is answered by the static middleware, not by the
    greeting route. *)
Lemma greet_escaped_path_is_static :
  decodeURIComponent "..%2F..%2Fapp.js" = Some "../../app.js"
  /\ static_file public (get "/api/greet/..%2F..%2Fapp.js")
     = Some (FileHit "app.js")
  /\ serve process0 (get "/api/greet/..%2F..%2Fapp.js")
     = {| status := 200; content := File "app.js" |}.
Proof. repeat split. Qed.

(** The static middleware decodes and normalises the path before it
    looks for the file, and redirects a path that names the directory
    without a final slash. *)
Lemma static_path_is_normalised :
  serve process0 (get "/app%2Ejs") = {| status := 200; content := File "app.js" |}
  /\ serve process0 (get "//app.js")
     = {| status := 200; content := File "app.js" |}
  /\ serve process0 (get "/./././app.js")
     = {| status := 200; content := File "app.js" |}
  /\ serve process0 (get "/x/../app.js")
     = {| status := 200; content := File "app.js" |}
  /\ serve process0 (get "/../app.js")
     = {| status := 404; content := File "404.html" |}
  /\ serve process0 (get "/app.js/")
     = {| status := 404; content := File "404.html" |}
  /\ serve process0 (get "/x/..") = {| status := 301; content := Redirect |}.
Proof. repeat split. Qed.

(** A JSON body in a charset the parser does not support is answered
    415, whatever its text. *)
Lemma unsupported_charset_is_415 :
  serve process0
    {| method := POST; path := "/api/echo";
       content_type := Some "application/json"; coding_supported := false;
       payload := Some text_message_hi |}
  = {| status := 415; content := ErrorPage |}.
Proof. reflexivity. Qed.

(** An undefined path with a malformed JSON body is answered 400, not
    404. *)
Lemma unmatched_bad_body_is_400 :
  static_file public (post_json "/does-not-exist" text_broken) = None
  /\ existsb (fun rt => path_matches (snd rt)
                          (post_json "/does-not-exist" text_broken))
       (routes_of app) = false
  /\ serve process0 (post_json "/does-not-exist" text_broken)
     = {| status := 400; content := ErrorPage |}.
Proof. repeat split. Qed.

Lemma unmatched_is_not_found_witness :
  static_file public (get "/does-not-exist") = None
  /\ accepted (get "/does-not-exist") = true
  /\ existsb (fun rt => path_matches (snd rt) (get "/does-not-exist"))
       (routes_of app) = false
  /\ serve process0 (get "/does-not-exist")
     = {| status := 404; content := File "404.html" |}
  /\ existsb (fun rt => answers rt (get "/does-not-exist")) (routes_of app)
     = false.
Proof.
  do 3 (split; [reflexivity|]).
  pose proof (unmatched_is_not_found process0 (get "/does-not-exist"))
    as [Hfwd Hback].
  split; [apply Hfwd; reflexivity | apply Hback; reflexivity].
Defined.

Lemma greet_message_contains_name_witness :
  method (get "/api/greet/World") = GET
  /\ path (get "/api/greet/World") = "/api/greet/" +:+ "World"
  /\ all_chars unreserved "World" = true
  /\ "World" <> ""
  /\ accepted (get "/api/greet/World") = true
  /\ (forall v, field "message" (serve process0 (get "/api/greet/World"))
                = Some v ->
                exists m, v = JString m /\ includes m "World" = true)
  /\ exists m, field "message" (serve process0 (get "/api/greet/World"))
               = Some (JString m).
Proof.
  do 3 (split; [reflexivity|]). split; [discriminate|].
  split; [reflexivity|].
  pose proof (greet_message_contains_name process0 (get "/api/greet/World")
                "World" eq_refl eq_refl eq_refl) as [Hall Hex].
  split; [exact Hall | apply Hex; [discriminate | reflexivity]].
Defined.

(** With NODE_ENV set to the empty string the environment field is
    "development", not the empty string. *)
Lemma empty_NODE_ENV_is_development :
  env (with_env "NODE_ENV" "" process0) !! "NODE_ENV" = Some ""
  /\ field "environment"
       (serve (with_env "NODE_ENV" "" process0) (get "/api/info"))
     = Some (JString "development").
Proof. split; reflexivity. Qed.

Lemma info_environment_witness :
  method (get "/api/info") = GET
  /\ path (get "/api/info") = "/api/info"
  /\ accepted (get "/api/info") = true
  /\ field "environment"
       (serve (with_env "NODE_ENV" "production" process0) (get "/api/info"))
     = Some (JString "production").
Proof.
  do 3 (split; [reflexivity|]).
  apply (info_environment (with_env "NODE_ENV" "production" process0)
           (get "/api/info")); reflexivity.
Defined.

Lemma listening_port_witness :
  env process0 !! "PORT" = None
  /\ port (listen process0) = PortNumber 3000
  /\ env (with_env "PORT" "8080" process0) !! "PORT" = Some "8080"
  /\ "8080" <> ""
  /\ port (listen (with_env "PORT" "8080" process0)) = PortString "8080".
Proof.
  split; [reflexivity|].
  split; [apply (proj1 (listening_port process0)); reflexivity|].
  split; [reflexivity|]. split; [discriminate|].
  apply (proj2 (listening_port (with_env "PORT" "8080" process0)) "8080");
    [reflexivity | discriminate].
Defined.

(** POST /api/info with a malformed JSON body is answered 400, not 404. *)
Lemma wrong_method_bad_body_is_400 :
  In (GET, [Lit "api"; Lit "info"]) (routes_of app)
  /\ path_matches [Lit "api"; Lit "info"] (post_json "/api/info" text_broken)
     = true
  /\ handles_method GET (method (post_json "/api/info" text_broken)) = false
  /\ static_file public (post_json "/api/info" text_broken) = None
  /\ serve process0 (post_json "/api/info" text_broken)
     = {| status := 400; content := ErrorPage |}.
Proof. split; [right; left; reflexivity|]. repeat split. Qed.

Lemma wrong_method_is_not_found_witness :
  In (GET, [Lit "api"; Lit "info"]) (routes_of app)
  /\ path_matches [Lit "api"; Lit "info"] (bare POST "/api/info") = true
  /\ handles_method GET (method (bare POST "/api/info")) = false
  /\ static_file public (bare POST "/api/info") = None
  /\ accepted (bare POST "/api/info") = true
  /\ params_decode (routes_of app) (bare POST "/api/info") = true
  /\ serve process0 (bare POST "/api/info")
     = {| status := 404; content := File "404.html" |}.
Proof.
  split; [right; left; reflexivity|].
  do 5 (split; [reflexivity|]).
  apply (wrong_method_is_not_found process0 (bare POST "/api/info")
           (GET, [Lit "api"; Lit "info"]));
    try reflexivity. right; left; reflexivity.
Defined.

(* ===================================================================== *)
(** ** Beyond the contract: the stack as a whole *)
(* ===================================================================== *)

Import Variants.

Section Stack.
Context `{!Builtins}.

Lemma read_json_failed_code (r : Request) (code : Z) :
  read_json r = Failed code -> code = 400%Z \/ code = 413%Z \/ code = 415%Z.
Proof.
  unfold read_json.
  destruct (payload r) as [text|]; [| discriminate].
  destruct (negb (is_json_type (content_type r))); [discriminate|].
  destruct (negb (coding_supported r));
    [intros [= <-]; right; right; reflexivity|].
  destruct (Z.ltb json_limit (Z.of_nat (String.length text)));
    [intros [= <-]; right; left; reflexivity|].
  destruct (String.eqb text ""); [discriminate|].
  destruct (negb (strict_first text)); [intros [= <-]; left; reflexivity|].
  destruct (JSON_parse text); [discriminate | intros [= <-]; left; reflexivity].
Qed.

Lemma handle_stamped (p : Process) (stack : list Layer) :
  Forall layer_stamped stack -> forall req, stamped p (handle p stack req).
Proof.
  induction 1 as [|l stack Hl _ IH]; intros req.
  - intros v Hv. discriminate Hv.
  - destruct l as [mw | m pat h]; cbn [handle layer_stamped] in *.
    + destruct (mw p req) as [req' | res | code] eqn:Hmw.
      * apply IH.
      * intros v Hv. destruct (Hl p req res v Hmw Hv).
      * intros v Hv. discriminate Hv.
    + destruct (match_path pat (path (request req))) as [raw|]; [| apply IH].
      destruct (decode_params raw) as [ps|];
        [| intros v Hv; discriminate Hv].
      destruct (handles_method m (method (request req))); [apply Hl | apply IH].
Qed.

Lemma middleware_never_sends_json :
  layer_stamped (app_use (express_static public))
  /\ layer_stamped (app_use express_json)
  /\ layer_stamped (app_use not_found).
Proof.
  cbn [layer_stamped app_use].
  split; [| split]; intros p req res v.
  - unfold express_static.
    destruct (static_file public (request req)) as [[f|]|];
      intros [= <-]; discriminate.
  - unfold express_json. destruct (read_json _); discriminate.
  - intros [= <-]. discriminate.
Qed.

Lemma handlers_stamp :
  layer_stamped (app_get "/" root)
  /\ layer_stamped (app_get "/api/info" api_info)
  /\ layer_stamped (app_get "/api/greet/:name" api_greet)
  /\ layer_stamped (app_post "/api/echo" api_echo).
Proof.
  cbn [layer_stamped app_get app_post].
  split; [| split; [| split]]; intros p req v.
  - discriminate.
  - unfold api_info. rewrite res_json_shallow by (cbn; lia). reflexivity.
  - unfold api_greet. rewrite res_json_shallow by (cbn; lia). reflexivity.
  - unfold api_echo, res_json.
    destruct (body req); destruct (_ <=? _)%nat;
      first [reflexivity | discriminate].
Qed.

Lemma app_stamped : Forall layer_stamped app.
Proof.
  destruct middleware_never_sends_json as (Hstatic & Hjson & Hnf).
  destruct handlers_stamp as (Hroot & Hinfo & Hgreet & Hecho).
  unfold app.
  repeat (constructor; [assumption|]). constructor.
Qed.

(** X2.  Every JSON document the server sends, from whichever route, has
    a top-level timestamp field holding the ISO-8601 text of the clock at
    the time of the request; a body echoed under [received] cannot
    replace it. *)
Theorem json_answers_are_stamped (p : Process) (r : Request) (v : JSON) :
  content (serve p r) = Json v ->
  field "timestamp" (serve p r) = Some (JString (toISOString (clock p))).
Proof.
  intros Hv. exact (handle_stamped p app app_stamped (incoming r) v Hv).
Qed.

(** X3.  A HEAD request is answered like the GET request for the same
    path, with the same status and the same representation. *)
Theorem head_is_answered_like_get (p : Process) (r : Request) :
  serve p (with_method HEAD r) = serve p (with_method GET r).
Proof.
  destruct (static_file public (with_method GET r)) as [[f|]|] eqn:Hf.
  { rewrite (serve_static p (with_method GET r) f Hf).
    exact (serve_static p (with_method HEAD r) f Hf). }
  { rewrite (serve_redirect p (with_method GET r) Hf).
    exact (serve_redirect p (with_method HEAD r) Hf). }
  assert (Hf' : static_file public (with_method HEAD r) = None) by exact Hf.
  destruct (read_json (with_method GET r)) as [| v | code] eqn:Hj.
  3: { rewrite (serve_failed p _ code Hf Hj).
       exact (serve_failed p _ code Hf' Hj). }
  all: rewrite !serve_routed;
    try assumption; try (unfold accepted; rewrite Hj; reflexivity);
    try (unfold accepted;
         change (read_json (with_method HEAD r))
           with (read_json (with_method GET r));
         rewrite Hj; reflexivity);
    unfold routed, parsed_body;
    change (read_json (with_method HEAD r)) with (read_json (with_method GET r));
    rewrite Hj;
    cbn [drop app app_get app_post app_use handle request path method
         with_method];
    repeat (destruct (match_path _ (path r)) as [?|];
            [destruct (decode_params _); [| reflexivity] |]);
    reflexivity.
Qed.

(** X4.  The body of a request matters to POST /api/echo only: two
    requests with the same method, other than POST, and the same path,
    both accepted by the body parser, get the same answer whatever their
    bodies and content types. *)
Theorem body_matters_to_echo_only (p : Process) (r r' : Request) :
  method r = method r' -> path r = path r' -> method r <> POST ->
  accepted r = true -> accepted r' = true ->
  serve p r = serve p r'.
Proof.
  intros Hm Hp Hpost Hj Hj'.
  assert (Hs : static_file public r = static_file public r')
    by (unfold static_file; rewrite Hm, Hp; reflexivity).
  destruct (static_file public r') as [[f|]|] eqn:Hf'.
  { rewrite (serve_static p r f Hs), (serve_static p r' f Hf'). reflexivity. }
  { rewrite (serve_redirect p r Hs), (serve_redirect p r' Hf'). reflexivity. }
  rewrite (serve_routed p r Hs Hj), (serve_routed p r' Hf' Hj').
  cbn [drop app app_get app_post app_use handle routed request].
  rewrite Hp, Hm.
  repeat (destruct (match_path _ (path r')) as [?|];
          [destruct (decode_params _); [| reflexivity] |]);
  destruct (method r') eqn:Hm'; try reflexivity; congruence.
Qed.

(** X5.  A GET or HEAD request for / or for a file of the public
    directory is answered 200 with that file, index.html for /, before
    the body parser sees it: a body the parser would reject changes
    nothing. *)
Theorem static_file_before_body_parser (p : Process) (r : Request) (f : string) :
  method r = GET \/ method r = HEAD ->
  (path r = "/" /\ f = "index.html") \/ (In f public /\ path r = "/" +:+ f) ->
  serve p r = {| status := 200; content := File f |}.
Proof.
  intros Hm Hp. apply serve_static. unfold static_file.
  assert (Hl : static_lookup public (path r) = Some (FileHit f)).
  { destruct Hp as [[-> ->] | [Hin ->]];
      [rewrite static_lookup_plain by reflexivity; reflexivity|].
    cbn [In public] in Hin.
    destruct Hin as [<- | [<- | [<- | [<- | [<- | []]]]]];
      rewrite static_lookup_plain by reflexivity; reflexivity. }
  destruct Hm as [-> | ->]; exact Hl.
Qed.

(** X6.  The static files answer GET and HEAD only: a request with
    another method for / or for a file of the public directory, accepted
    by the body parser, gets status 404 and the file 404.html. *)
Theorem static_file_other_method (p : Process) (r : Request) (f : string) :
  method r <> GET -> method r <> HEAD ->
  path r = "/" \/ (In f public /\ path r = "/" +:+ f) ->
  accepted r = true ->
  serve p r = {| status := 404; content := File "404.html" |}.
Proof.
  intros Hget Hhead Hp Hj.
  assert (Hs : static_file public r = None)
    by (unfold static_file; destruct (method r); congruence).
  apply (serve_fallback p r Hs Hj);
    rewrite routes_of_app_eq; unfold answers, path_matches, params_decode;
    cbn [existsb forallb fst snd];
    (destruct Hp as [-> | [Hin ->]];
     [| cbn [In public] in Hin;
        destruct Hin as [<- | [<- | [<- | [<- | [<- | []]]]]]]);
    destruct (method r); try congruence; reflexivity.
Qed.

(** X7.  A body the parser rejects ends the request whenever its path,
    decoded and normalised, names no static file, whatever the method and
    whether or not a route matches: the answer is the error page with
    status 400, 413 or 415. *)
Theorem rejected_body_ends_request (p : Process) (r : Request) :
  static_file public r = None -> accepted r = false ->
  content (serve p r) = ErrorPage
  /\ (status (serve p r) = 400%Z \/ status (serve p r) = 413%Z
      \/ status (serve p r) = 415%Z).
Proof.
  intros Hf Hj. unfold accepted in Hj.
  destruct (read_json r) as [| v | code] eqn:Hr; try discriminate Hj.
  rewrite (serve_failed p r code Hf Hr).
  split; [reflexivity | exact (read_json_failed_code r code Hr)].
Qed.

(** X8.  A declared JSON body of more than 102400 bytes, in a supported
    charset and content coding, is answered 413 whenever the path,
    decoded and normalised, names no static file, even when its text is
    valid JSON; in an unsupported charset or coding it is answered 415,
    whatever its size. *)
Theorem body_over_limit_is_413 (p : Process) (r : Request) (text : string) :
  static_file public r = None ->
  content_type r = Some "application/json" -> payload r = Some text ->
  (coding_supported r = true ->
   (json_limit < Z.of_nat (String.length text))%Z ->
   serve p r = {| status := 413; content := ErrorPage |})
  /\ (coding_supported r = false ->
      serve p r = {| status := 415; content := ErrorPage |}).
Proof.
  intros Hf Hct Hpl.
  split; [intros Hcs Hlen; apply (serve_failed p r 413 Hf)
         | intros Hcs; apply (serve_failed p r 415 Hf)];
    unfold read_json; rewrite Hpl, Hct, Hcs; cbn [is_json_type];
    rewrite String.eqb_refl; cbn [negb]; [| reflexivity].
  destruct (Z.ltb_spec json_limit (Z.of_nat (String.length text)));
    [reflexivity | lia].
Qed.

(** X9.  A request to /api/greet/{segment} whose segment does not
    URL-decode, and whose body the parser accepts, is answered 400 by the
    error handler, whatever its method: the path names no static file,
    and the router decodes the parameter before it looks at the
    method. *)
Theorem undecodable_name_is_400 (p : Process) (r : Request) (seg : string) :
  path r = "/api/greet/" +:+ seg ->
  seg <> "" -> all_chars not_slash seg = true ->
  decodeURIComponent seg = None ->
  accepted r = true ->
  serve p r = {| status := 400; content := ErrorPage |}.
Proof.
  intros Hp Hne Hns Hdec Hj.
  assert (Hf : static_file public r = None).
  { unfold static_file. rewrite Hp.
    rewrite (static_lookup_undecodable public "/api/greet/" seg eq_refl Hdec).
    destruct (method r); reflexivity. }
  rewrite (serve_routed p r Hf Hj).
  cbn [drop app app_get app_post app_use handle routed request].
  unfold match_path. rewrite Hp, (segments_greet seg Hne Hns).
  destruct seg as [|c seg]; [contradiction|].
  lazy -[decodeURIComponent toISOString String.append clock] in Hdec |- *.
  rewrite Hdec. reflexivity.
Qed.

Lemma append_length (a b : string) :
  String.length (a +:+ b) = (String.length a + String.length b)%nat.
Proof.
  induction a as [|c a IH]; [reflexivity|].
  rewrite append_cons. cbn [String.length]. rewrite IH. reflexivity.
Qed.

Lemma append_cancel_r (a b s : string) : a +:+ s = b +:+ s -> a = b.
Proof.
  revert b. induction a as [|c a IH]; intros [|d b] Heq.
  - reflexivity.
  - apply (f_equal String.length) in Heq.
    rewrite append_nil, append_cons in Heq. cbn [String.length] in Heq.
    rewrite append_length in Heq. lia.
  - apply (f_equal String.length) in Heq.
    rewrite append_nil, append_cons in Heq. cbn [String.length] in Heq.
    rewrite append_length in Heq. lia.
  - rewrite !append_cons in Heq. injection Heq as -> Heq.
    rewrite (IH b Heq). reflexivity.
Qed.

Lemma append_cancel_l (s a b : string) : s +:+ a = s +:+ b -> a = b.
Proof.
  induction s as [|c s IH]; [rewrite !append_nil; trivial|].
  rewrite !append_cons. intros [= Heq]. exact (IH Heq).
Qed.

(** X10.  The greeting determines the name: two names with the same
    greeting are the same name. *)
Theorem greeting_determines_name (a b : string) :
  greeting (Some a) = greeting (Some b) -> a = b.
Proof.
  unfold greeting, interpolate. intros Heq.
  apply append_cancel_l in Heq. apply append_cancel_r in Heq. exact Heq.
Qed.

Lemma lower_char_slash (c : ascii) :
  Ascii.eqb (lower_char c) "/" = Ascii.eqb c "/".
Proof. destruct c as [[] [] [] [] [] [] [] []]; reflexivity. Qed.

Lemma lower_char_idem (c : ascii) : lower_char (lower_char c) = lower_char c.
Proof. destruct c as [[] [] [] [] [] [] [] []]; reflexivity. Qed.

Lemma lower_idem (s : string) : lower (lower s) = lower s.
Proof.
  induction s as [|c s IH]; [reflexivity|].
  cbn [lower]. rewrite lower_char_idem, IH. reflexivity.
Qed.

Lemma eqb_lower_empty (s : string) :
  String.eqb (lower s) "" = String.eqb s "".
Proof. destruct s; reflexivity. Qed.

Lemma split_on_lower (s : string) :
  split_on "/" (lower s) = map lower (split_on "/" s).
Proof.
  induction s as [|c s IH]; [reflexivity|].
  cbn [lower split_on]. rewrite lower_char_slash, IH.
  destruct (Ascii.eqb c "/"); [reflexivity|].
  destruct (split_on "/" s); reflexivity.
Qed.

Lemma drop_last_empty_lower (segs : list string) :
  drop_last_empty (map lower segs) = map lower (drop_last_empty segs).
Proof.
  induction segs as [|s segs IH]; [reflexivity|].
  destruct segs as [|s' segs].
  - cbn [map drop_last_empty]. rewrite eqb_lower_empty.
    destruct (String.eqb s ""); reflexivity.
  - change (drop_last_empty (map lower (s :: s' :: segs)))
      with (lower s :: drop_last_empty (map lower (s' :: segs))).
    rewrite IH. reflexivity.
Qed.

Lemma segments_lower (q : string) :
  segments (lower q) = option_map (map lower) (segments q).
Proof.
  unfold segments. rewrite split_on_lower.
  destruct (split_on "/" q) as [|s segs]; [reflexivity|].
  cbn [map]. rewrite eqb_lower_empty.
  destruct (String.eqb s ""); [| reflexivity].
  cbn [option_map]. rewrite drop_last_empty_lower. reflexivity.
Qed.

(** Whether a pattern matches does not depend on the case of the path. *)
Lemma match_segs_lower (pat : list Seg) (segs : list string) :
  match match_segs pat (map lower segs) with Some _ => true | None => false end
  = match match_segs pat segs with Some _ => true | None => false end.
Proof.
  revert segs. induction pat as [|[l | n] pat IH]; intros [|s segs];
    try reflexivity; cbn [map match_segs].
  - rewrite lower_idem.
    destruct (String.eqb (lower s) (lower l)); [apply IH | reflexivity].
  - rewrite eqb_lower_empty. destruct (String.eqb s ""); [reflexivity|].
    specialize (IH segs).
    destruct (match_segs pat (map lower segs)), (match_segs pat segs);
      first [reflexivity | discriminate IH].
Qed.

(** A pattern without parameters binds nothing. *)
Lemma match_segs_literal (pat : list Seg) (segs : list string) :
  literal_only pat = true ->
  match_segs pat segs = None \/ match_segs pat segs = Some [].
Proof.
  revert segs. induction pat as [|[l | n] pat IH]; intros [|s segs] Hlit;
    try (left; reflexivity); try (right; reflexivity);
    cbn [literal_only forallb] in Hlit; try discriminate Hlit.
  cbn [match_segs].
  destruct (String.eqb (lower s) (lower l)); [apply IH, Hlit | left; reflexivity].
Qed.

Lemma path_matches_lower (pat : list Seg) (q : string) :
  match match_path pat q with Some _ => true | None => false end
  = match match_path pat (lower q) with Some _ => true | None => false end.
Proof.
  unfold match_path. rewrite segments_lower.
  destruct (segments q) as [segs|]; [| reflexivity].
  cbn [option_map]. symmetry. apply match_segs_lower.
Qed.

Lemma match_path_literal_lower (pat : list Seg) (q : string) :
  literal_only pat = true -> match_path pat q = match_path pat (lower q).
Proof.
  intros Hlit. pose proof (path_matches_lower pat q) as Hsame.
  unfold match_path in *.
  destruct (segments q) as [segs|], (segments (lower q)) as [segs'|];
    try reflexivity.
  - destruct (match_segs_literal pat segs Hlit) as [E | E],
             (match_segs_literal pat segs' Hlit) as [E' | E'];
      rewrite E, E' in *; first [reflexivity | discriminate Hsame].
  - destruct (match_segs_literal pat segs Hlit) as [E | E];
      rewrite E in *; [reflexivity | discriminate Hsame].
  - destruct (match_segs_literal pat segs' Hlit) as [E | E];
      rewrite E in *; [reflexivity | discriminate Hsame].
Qed.

Lemma match_path_none_lower (pat : list Seg) (q : string) :
  match_path pat (lower q) = None -> match_path pat q = None.
Proof.
  intros Hnone. pose proof (path_matches_lower pat q) as Hsame.
  rewrite Hnone in Hsame. destruct (match_path pat q); [discriminate | reflexivity].
Qed.

Lemma not_percent_lower_char (c : ascii) :
  not_percent (lower_char c) = not_percent c.
Proof. destruct c as [[] [] [] [] [] [] [] []]; reflexivity. Qed.

Lemma not_percent_lower (s : string) :
  all_chars not_percent (lower s) = all_chars not_percent s.
Proof.
  induction s as [|c s IH]; [reflexivity|].
  cbn [lower all_chars]. rewrite not_percent_lower_char, IH. reflexivity.
Qed.

Lemma nul_lower_char (c : ascii) :
  Ascii.eqb (lower_char c) "000" = Ascii.eqb c "000".
Proof. destruct c as [[] [] [] [] [] [] [] []]; reflexivity. Qed.

Lemma has_nul_lower (s : string) : has_nul (lower s) = has_nul s.
Proof.
  induction s as [|c s IH]; [reflexivity|].
  cbn [lower has_nul]. rewrite nul_lower_char, IH. reflexivity.
Qed.

Lemma dot_lower_char (c : ascii) :
  Ascii.eqb (lower_char c) "." = Ascii.eqb c ".".
Proof. destruct c as [[] [] [] [] [] [] [] []]; reflexivity. Qed.

Lemma eqb_lower_dot (s : string) :
  String.eqb (lower s) "." = String.eqb s ".".
Proof.
  destruct s as [|c [|d s]]; try reflexivity; cbn [lower String.eqb];
    rewrite dot_lower_char; reflexivity.
Qed.

Lemma eqb_lower_dots (s : string) :
  String.eqb (lower s) ".." = String.eqb s "..".
Proof.
  destruct s as [|c [|d [|e s]]]; try reflexivity; cbn [lower String.eqb];
    rewrite ?dot_lower_char; reflexivity.
Qed.

(** Dot segments are resolved alike in a path and in its lower-case
    form. *)
Lemma resolve_lower (segs kept : list string) :
  resolve (map lower segs) (map lower kept)
  = option_map (map lower) (resolve segs kept).
Proof.
  revert kept. induction segs as [|s segs IH]; intros kept.
  - cbn [map resolve option_map]. rewrite map_rev. reflexivity.
  - cbn [map resolve].
    rewrite eqb_lower_empty, eqb_lower_dot, eqb_lower_dots.
    destruct (String.eqb s "" || String.eqb s "."); [apply IH|].
    destruct (String.eqb s "..").
    + destruct kept as [|k kept]; [reflexivity | apply IH].
    + apply (IH (s :: kept)).
Qed.

(** A path that is /api/info up to case names no static file. *)
Lemma static_file_info_lower (r : Request) :
  lower (path r) = "/api/info" \/ lower (path r) = "/api/info/" ->
  static_file public r = None.
Proof.
  intros Hlow. unfold static_file.
  assert (Hplain : all_chars not_percent (path r) = true)
    by (rewrite <- not_percent_lower; destruct Hlow as [-> | ->]; reflexivity).
  assert (Hnul : has_nul (path r) = false)
    by (rewrite <- has_nul_lower; destruct Hlow as [-> | ->]; reflexivity).
  assert (Hres : resolve (split_on "/" (lower (path r))) []
                 = Some ["api"; "info"])
    by (destruct Hlow as [-> | ->]; reflexivity).
  rewrite split_on_lower in Hres.
  change (resolve (map lower (split_on "/" (path r))) [])
    with (resolve (map lower (split_on "/" (path r))) (map lower [])) in Hres.
  rewrite resolve_lower in Hres.
  rewrite (static_lookup_plain (path r) Hplain), Hnul.
  destruct (resolve (split_on "/" (path r)) []) as [segs|];
    [| destruct (method r); reflexivity].
  cbn [option_map] in Hres. injection Hres as Hres.
  destruct segs as [|s1 [|s2 [|s3 segs]]]; try discriminate Hres.
  destruct (ends_with_slash (path r)); destruct (method r); reflexivity.
Qed.

(** X11.  Routing ignores the case of the path and one trailing slash:
    a request whose path is /api/info in any capitalisation, with or
    without a final slash, is answered like the request for /api/info. *)
Theorem info_path_ignores_case (p : Process) (r : Request) :
  lower (path r) = "/api/info" \/ lower (path r) = "/api/info/" ->
  serve p r = serve p (with_path "/api/info" r).
Proof.
  intros Hlow.
  assert (Hroot : match_path (compile_path "/") (path r) = None).
  { apply match_path_none_lower. destruct Hlow as [-> | ->]; reflexivity. }
  assert (Hinfo : match_path (compile_path "/api/info") (path r) = Some []).
  { rewrite match_path_literal_lower by reflexivity.
    destruct Hlow as [-> | ->]; reflexivity. }
  assert (Hgreet : match_path (compile_path "/api/greet/:name") (path r) = None).
  { apply match_path_none_lower. destruct Hlow as [-> | ->]; reflexivity. }
  assert (Hecho : match_path (compile_path "/api/echo") (path r) = None).
  { apply match_path_none_lower. destruct Hlow as [-> | ->]; reflexivity. }
  pose proof (static_file_info_lower r Hlow) as Hs.
  assert (Hs0 : static_file public (with_path "/api/info" r) = None)
    by exact (static_file_info (with_path "/api/info" r) eq_refl).
  destruct (read_json r) as [| v | code] eqn:Hj.
  3: { rewrite (serve_failed p r code Hs Hj).
       symmetry. exact (serve_failed p _ code Hs0 Hj). }
  all: rewrite (serve_routed p r Hs)
         by (unfold accepted; rewrite Hj; reflexivity);
       rewrite (serve_routed p _ Hs0)
         by (unfold accepted;
             change (read_json (with_path "/api/info" r)) with (read_json r);
             rewrite Hj; reflexivity);
       unfold routed, parsed_body;
       change (read_json (with_path "/api/info" r)) with (read_json r);
       rewrite Hj;
       cbn [drop app app_get app_post app_use handle request path method
            with_path];
       rewrite Hroot, Hinfo, Hgreet, Hecho;
       destruct (method r); reflexivity.
Qed.

End Stack.

(* ===================================================================== *)
(** ** The page script and the server together *)
(* ===================================================================== *)

Import Client.

Section PageScript.
Context `{!Builtins}.

Lemma get_field_in (k : string) (fs : list (string * JSON)) (v : JSON) :
  get_field k fs = Some v -> In k (map fst fs).
Proof.
  induction fs as [|[k' x] fs IH]; [discriminate|].
  cbn [get_field map fst In].
  destruct (String.eqb_spec k k') as [-> | _]; [left; reflexivity|].
  intros Hv. right. exact (IH Hv).
Qed.

(** X13.  The properties of the /api/info answer that [loadSystemInfo]
    renders are exactly the fields the server sends, and each holds a
    string: the page shows no undefined value and leaves no field out. *)
Theorem page_reads_what_info_sends (p : Process) (k : string) :
  In k loadSystemInfo_reads
  <-> exists s, field k (serve p loadSystemInfo) = Some (JString s).
Proof.
  rewrite (serve_api_info p loadSystemInfo eq_refl eq_refl eq_refl).
  unfold field. cbn [content loadSystemInfo_reads]. split.
  - cbn [In].
    intros [<- | [<- | [<- | [<- | [<- | []]]]]]; eexists; reflexivity.
  - intros [s Hs]. apply get_field_in in Hs. cbn [map fst In] in Hs.
    unfold loadSystemInfo_reads. cbn [In]. tauto.
Qed.

End PageScript.

(* ===================================================================== *)
(** ** The deployment script: which files the filter drops *)
(* ===================================================================== *)

Import Deploy.

Lemma like_star (pat s : string) :
  like_from (String "*" pat) s
  = like_from pat s
    || match s with
       | EmptyString => false
       | String _ s' => like_from (String "*" pat) s'
       end.
Proof. destruct s; reflexivity. Qed.

Lemma like_star_end (s : string) : like_from "*" s = true.
Proof.
  induction s as [|c s IH]; [reflexivity|].
  rewrite like_star. rewrite IH. apply orb_true_r.
Qed.

Lemma like_star_star (pat s : string) :
  like_from (String "*" (String "*" pat)) s = like_from (String "*" pat) s.
Proof.
  induction s as [|c s IH].
  - rewrite (like_star (String "*" pat)). rewrite orb_false_r. reflexivity.
  - rewrite (like_star (String "*" pat) (String c s)), IH.
    rewrite (like_star pat (String c s)).
    destruct (like_from pat (String c s)); cbn [orb]; [reflexivity|].
    apply orb_diag.
Qed.

Lemma like_plain_prefix (lit s : string) :
  all_chars plain lit = true ->
  like_from (lit +:+ "*") s = starts_with (lower lit) (lower s).
Proof.
  revert s. induction lit as [|c lit IH]; intros s Hplain.
  - rewrite append_nil. apply like_star_end.
  - cbn [all_chars] in Hplain. apply andb_true_iff in Hplain as [Hc Hlit].
    unfold plain in Hc. apply negb_true_iff, orb_false_iff in Hc as [Hstar Hq].
    rewrite append_cons. cbn [like_from lower]. rewrite Hstar, Hq.
    destruct s as [|d s]; [reflexivity|].
    cbn [lower starts_with orb]. rewrite (IH s Hlit). reflexivity.
Qed.

Lemma like_star_includes (pat t s : string) :
  (forall u, like_from pat u = starts_with t (lower u)) ->
  like_from (String "*" pat) s = includes (lower s) t.
Proof.
  intros Hpat. induction s as [|c s IH].
  - rewrite like_star, Hpat. destruct t; reflexivity.
  - rewrite like_star, Hpat, IH. reflexivity.
Qed.

(** [$s -like "*lit*"] for a text [lit] without wildcards: [lit] occurs
    in [s], without regard to case. *)
Lemma like_contains (lit s : string) :
  all_chars plain lit = true ->
  like s ("*" +:+ lit +:+ "*") = includes (lower s) (lower lit).
Proof.
  intros Hplain. unfold like. rewrite append_cons, append_nil.
  apply like_star_includes. intros u. exact (like_plain_prefix lit u Hplain).
Qed.

Lemma like_contains_star (lit s : string) :
  all_chars plain lit = true ->
  like s ("*" +:+ String "*" lit +:+ "*") = includes (lower s) (lower lit).
Proof.
  intros Hplain. unfold like. rewrite !append_cons, append_nil.
  rewrite like_star_star.
  apply like_star_includes. intros u. exact (like_plain_prefix lit u Hplain).
Qed.

Lemma scan_by_word (FullName : string) :
  shouldExclude FullName
  = existsb (fun w => includes (lower FullName) w) excluded_words.
Proof.
  unfold shouldExclude, excludePatterns, excluded_words.
  cbn [scan existsb].
  rewrite (like_contains "node_modules"), (like_contains ".git"),
    (like_contains_star ".zip"), (like_contains_star ".log"),
    (like_contains ".env") by reflexivity.
  change (lower "node_modules") with "node_modules".
  change (lower ".git") with ".git".
  change (lower ".zip") with ".zip".
  change (lower ".log") with ".log".
  change (lower ".env") with ".env".
  destruct (includes (lower FullName) "node_modules"),
           (includes (lower FullName) ".git"),
           (includes (lower FullName) ".zip"),
           (includes (lower FullName) ".log"),
           (includes (lower FullName) ".env"); reflexivity.
Qed.

(** X14.  The filter drops a file exactly when its full name contains,
    without regard to case, one of the words node_modules, .git, .zip,
    .log and .env; the leading star of the patterns [*.zip] and [*.log]
    changes nothing. *)
Theorem exclusion_is_by_word (FullName : string) :
  shouldExclude FullName
  = existsb (fun w => includes (lower FullName) w) excluded_words.
Proof. exact (scan_by_word FullName). Qed.

Lemma lower_append (a b : string) : lower (a +:+ b) = lower a +:+ lower b.
Proof.
  induction a as [|c a IH]; [reflexivity|].
  rewrite append_cons. cbn [lower]. rewrite IH, append_cons. reflexivity.
Qed.

Lemma starts_with_app_r (t s b : string) :
  starts_with t s = true -> starts_with t (s +:+ b) = true.
Proof.
  revert s. induction t as [|c t IH]; intros [|d s] Hts;
    try reflexivity; try discriminate Hts.
  rewrite append_cons. cbn [starts_with] in *.
  apply andb_true_iff in Hts as [-> Hts]. exact (IH s Hts).
Qed.

Lemma includes_app_r (s b t : string) :
  includes s t = true -> includes (s +:+ b) t = true.
Proof.
  induction s as [|c s IH].
  - cbn [includes]. rewrite orb_false_r. intros Ht.
    destruct t; [| discriminate Ht]. destruct b; reflexivity.
  - rewrite append_cons. cbn [includes].
    intros [Hhere | Hlater]%orb_true_iff.
    + rewrite <- append_cons, (starts_with_app_r _ _ b Hhere). reflexivity.
    + rewrite (IH Hlater). apply orb_true_r.
Qed.

(** X15.  The filter looks at the full name as a text: when it drops a
    name, it drops every name that contains it.  So every file under a
    dropped directory is dropped, and so is any file whose path merely
    contains one of the words, such as one under .github. *)
Theorem exclusion_spreads (a FullName b : string) :
  shouldExclude FullName = true ->
  shouldExclude (a +:+ FullName +:+ b) = true.
Proof.
  rewrite !scan_by_word. intros Hex.
  apply existsb_exists in Hex as (w & Hw & Hin).
  apply existsb_exists. exists w. split; [exact Hw|].
  rewrite !lower_append. apply includes_app_l, includes_app_r. exact Hin.
Qed.

(* ===================================================================== *)
(** ** The further properties on sample inputs *)
(* ===================================================================== *)

Import SampleRequests.

Lemma json_answers_are_stamped_witness :
  content (serve process0 (get "/api/greet/World"))
  = Json (JObject
      [("message", JString "Hello, World! Welcome to Azure App Service.");
       ("timestamp", JString "2023-11-14T22:13:20.000Z")])
  /\ field "timestamp" (serve process0 (get "/api/greet/World"))
     = Some (JString "2023-11-14T22:13:20.000Z").
Proof.
  split; [reflexivity|].
  exact (json_answers_are_stamped process0 (get "/api/greet/World") _ eq_refl).
Defined.

Lemma body_matters_to_echo_only_witness :
  method (get "/api/info")
  = method (request_of GET "/api/info" (Some "application/json")
              (Some text_message_hi))
  /\ path (get "/api/info")
     = path (request_of GET "/api/info" (Some "application/json")
               (Some text_message_hi))
  /\ method (get "/api/info") <> POST
  /\ accepted (get "/api/info") = true
  /\ accepted (request_of GET "/api/info" (Some "application/json")
                 (Some text_message_hi)) = true
  /\ serve process0 (get "/api/info")
     = serve process0 (request_of GET "/api/info" (Some "application/json")
                         (Some text_message_hi)).
Proof.
  do 2 (split; [reflexivity|]). split; [discriminate|].
  do 2 (split; [reflexivity|]).
  apply body_matters_to_echo_only; try reflexivity. discriminate.
Defined.

Lemma static_file_before_body_parser_witness :
  (method (request_of GET "/app.js" (Some "application/json")
             (Some text_broken)) = GET
   \/ method (request_of GET "/app.js" (Some "application/json")
                (Some text_broken)) = HEAD)
  /\ In "app.js" public
  /\ path (request_of GET "/app.js" (Some "application/json")
             (Some text_broken)) = "/" +:+ "app.js"
  /\ accepted (request_of GET "/app.js" (Some "application/json")
                 (Some text_broken)) = false
  /\ serve process0 (request_of GET "/app.js" (Some "application/json")
                       (Some text_broken))
     = {| status := 200; content := File "app.js" |}.
Proof.
  split; [left; reflexivity|].
  split; [do 3 right; left; reflexivity|].
  do 2 (split; [reflexivity|]).
  apply static_file_before_body_parser; [left; reflexivity|].
  right. split; [do 3 right; left; reflexivity | reflexivity].
Defined.

Lemma static_file_other_method_witness :
  method (bare POST "/app.js") <> GET
  /\ method (bare POST "/app.js") <> HEAD
  /\ In "app.js" public
  /\ path (bare POST "/app.js") = "/" +:+ "app.js"
  /\ accepted (bare POST "/app.js") = true
  /\ serve process0 (bare POST "/app.js")
     = {| status := 404; content := File "404.html" |}.
Proof.
  do 2 (split; [discriminate|]).
  split; [do 3 right; left; reflexivity|].
  do 2 (split; [reflexivity|]).
  apply (static_file_other_method process0 (bare POST "/app.js") "app.js");
    try discriminate; [| reflexivity].
  right. split; [do 3 right; left; reflexivity | reflexivity].
Defined.

Lemma rejected_body_ends_request_witness :
  static_file public (request_of DELETE "/nowhere" (Some "application/json")
                        (Some text_broken)) = None
  /\ accepted (request_of DELETE "/nowhere" (Some "application/json")
                 (Some text_broken)) = false
  /\ content (serve process0
                (request_of DELETE "/nowhere" (Some "application/json")
                   (Some text_broken))) = ErrorPage
  /\ (status (serve process0
                (request_of DELETE "/nowhere" (Some "application/json")
                   (Some text_broken))) = 400%Z
      \/ status (serve process0
                   (request_of DELETE "/nowhere" (Some "application/json")
                      (Some text_broken))) = 413%Z
      \/ status (serve process0
                   (request_of DELETE "/nowhere" (Some "application/json")
                      (Some text_broken))) = 415%Z).
Proof.
  do 2 (split; [reflexivity|]).
  apply rejected_body_ends_request; reflexivity.
Defined.

Lemma body_over_limit_is_413_witness :
  static_file public (post_json "/api/echo" long_text) = None
  /\ content_type (post_json "/api/echo" long_text) = Some "application/json"
  /\ payload (post_json "/api/echo" long_text) = Some long_text
  /\ coding_supported (post_json "/api/echo" long_text) = true
  /\ (json_limit < Z.of_nat (String.length long_text))%Z
  /\ strict_first long_text = true
  /\ serve process0 (post_json "/api/echo" long_text)
     = {| status := 413; content := ErrorPage |}.
Proof.
  do 4 (split; [reflexivity|]).
  assert (Hlen : (json_limit < Z.of_nat (String.length long_text))%Z)
    by (vm_compute; reflexivity).
  split; [exact Hlen|]. split; [vm_compute; reflexivity|].
  exact (proj1 (body_over_limit_is_413 process0
                  (post_json "/api/echo" long_text) long_text
                  eq_refl eq_refl eq_refl) eq_refl Hlen).
Defined.

Lemma undecodable_name_is_400_witness :
  path (bare DELETE "/api/greet/%zz") = "/api/greet/" +:+ "%zz"
  /\ "%zz" <> ""
  /\ all_chars not_slash "%zz" = true
  /\ decodeURIComponent "%zz" = None
  /\ accepted (bare DELETE "/api/greet/%zz") = true
  /\ serve process0 (bare DELETE "/api/greet/%zz")
     = {| status := 400; content := ErrorPage |}.
Proof.
  split; [reflexivity|]. split; [discriminate|].
  do 3 (split; [reflexivity|]).
  apply (undecodable_name_is_400 process0 (bare DELETE "/api/greet/%zz") "%zz");
    try reflexivity. discriminate.
Defined.

Lemma greeting_determines_name_witness :
  greeting (Some "Ada") = greeting (Some ("A" +:+ "da"))
  /\ "Ada" = "A" +:+ "da".
Proof.
  split; [reflexivity|].
  exact (greeting_determines_name "Ada" ("A" +:+ "da") eq_refl).
Defined.

Lemma info_path_ignores_case_witness :
  (lower (path (get "/API/Info/")) = "/api/info"
   \/ lower (path (get "/API/Info/")) = "/api/info/")
  /\ serve process0 (get "/API/Info/")
     = serve process0 (with_path "/api/info" (get "/API/Info/"))
  /\ field "app" (serve process0 (get "/API/Info/"))
     = Some (JString "Deploy Test Application").
Proof.
  split; [right; reflexivity|].
  split; [| reflexivity].
  apply info_path_ignores_case. right; reflexivity.
Defined.

Lemma page_reads_what_info_sends_witness :
  In "node_version" loadSystemInfo_reads
  /\ exists s, field "node_version" (serve process0 loadSystemInfo)
               = Some (JString s).
Proof.
  assert (Hin : In "node_version" loadSystemInfo_reads)
    by (do 3 right; left; reflexivity).
  split; [exact Hin|].
  exact (proj1 (page_reads_what_info_sends process0 "node_version") Hin).
Defined.

Lemma exclusion_spreads_witness :
  shouldExclude ".git" = true
  /\ shouldExclude ("/srv/app/" +:+ ".git" +:+ "hub/workflows/ci.yml") = true
  /\ shouldExclude "/srv/app/public/index.html" = false.
Proof.
  split; [reflexivity|]. split; [| reflexivity].
  exact (exclusion_spreads "/srv/app/" ".git" "hub/workflows/ci.yml" eq_refl).
Defined.

(* ===================================================================== *)
(** ** Paths longer than every route *)
(* ===================================================================== *)

Section LongPaths.
Context `{!Builtins}.

(** A pattern matches only a path with as many segments as it has. *)
Lemma match_segs_length (pat : list Seg) (segs : list string)
  (raw : list (string * string)) :
  match_segs pat segs = Some raw -> length pat = length segs.
Proof.
  revert segs raw. induction pat as [|[l | n] pat IH]; intros [|s segs] raw;
    try discriminate; [reflexivity | |]; cbn [match_segs length].
  - destruct (String.eqb (lower s) (lower l)); [| discriminate].
    intros Hm. rewrite (IH segs raw Hm). reflexivity.
  - destruct (String.eqb s ""); [discriminate|].
    destruct (match_segs pat segs) as [ps|] eqn:Hm; [| discriminate].
    intros _. rewrite (IH segs ps Hm). reflexivity.
Qed.

(** X16.  No route has more than three segments: a request whose path
    has more than three, such as /api/greet/a/b with an unescaped slash
    in the name, whose path, decoded and normalised, names no static
    file, and whose body the parser accepts, gets status 404 and the file
    404.html. *)
Theorem long_path_is_not_found (p : Process) (r : Request) (segs : list string) :
  segments (path r) = Some segs -> (3 < length segs)%nat ->
  static_file public r = None -> accepted r = true ->
  serve p r = {| status := 404; content := File "404.html" |}.
Proof.
  intros Hsegs Hlen Hs Hj.
  assert (Hnone : forall pat, (length pat <= 3)%nat ->
                              match_path pat (path r) = None).
  { intros pat Hpat. unfold match_path. rewrite Hsegs.
    destruct (match_segs pat segs) as [raw|] eqn:Hm; [| reflexivity].
    apply match_segs_length in Hm. lia. }
  apply (serve_fallback p r Hs Hj);
    rewrite routes_of_app_eq; unfold answers, path_matches, params_decode;
    cbn [existsb forallb fst snd];
    rewrite !Hnone by (cbn [length]; lia); reflexivity.
Qed.

End LongPaths.

Lemma long_path_is_not_found_witness :
  segments (path (get "/api/greet/a/b")) = Some ["api"; "greet"; "a"; "b"]
  /\ (3 < length ["api"; "greet"; "a"; "b"])%nat
  /\ static_file public (get "/api/greet/a/b") = None
  /\ accepted (get "/api/greet/a/b") = true
  /\ serve process0 (get "/api/greet/a/b")
     = {| status := 404; content := File "404.html" |}.
Proof.
  split; [reflexivity|].
  assert (Hlen : (3 < length ["api"; "greet"; "a"; "b"])%nat) by (cbn; lia).
  split; [exact Hlen|]. do 2 (split; [reflexivity|]).
  exact (long_path_is_not_found process0 (get "/api/greet/a/b")
           ["api"; "greet"; "a"; "b"] eq_refl Hlen eq_refl eq_refl).
Defined.
